(** * The Bayesian normal-gamma estimator of
      [src/homework2/problem1_bayesian_estimation.py]

    A shallow embedding of class [BayesianNormalEstimator] and the
    properties its specification states about it.

    Numbers.  The program computes with Python floats and numpy
    [float64] values.  The class is embedded twice.  Module [Binary64]
    embeds [update_posterior] on IEEE 754 binary64 numbers: what the
    update leaves in the posterior fields, and when it raises, is stated
    and proved there ([Binary64Properties]).  The first embedding, of
    the whole class, keeps what decides the control flow of the code and
    leaves rounding out; it carries the properties that do not depend on
    the value a float operation rounds to (what a method reads and
    writes, the contracts of the library calls):

    - a number is an extended real [xreal]: a real, an infinity or NaN,
      with exact arithmetic on the reals and the IEEE 754 rules on the
      special values.  Rounding, the range of a float and the sign of
      zero are outside the model: a zero is the positive zero, no
      operation on reals overflows (in Python a float square that
      overflows raises [OverflowError]) or underflows to zero, and an
      equality between fields is an equality in exact arithmetic;
    - a value [num] records whether it is a Python scalar or a numpy
      [float64], because the two divide differently: Python's [/] raises
      [ZeroDivisionError] on a zero divisor, numpy's returns an infinity
      or NaN (and only warns);
    - a method body runs in a state-and-exception monad over the
      estimator object, so that the fields written before an exception
      stay written, as in Python.

    numpy's random samplers and scipy's Student-t density are library
    code outside the repository: they are parameters of the sections
    that use them, with the part of their documented contract that the
    proofs need as hypotheses. *)

From Stdlib Require Import Reals Lra List ZArith Lia Bool.
From Stdlib Require Uint63 Floats.
Import ListNotations.
Local Open Scope R_scope.

(** ** Decisions on the reals as booleans *)

Definition Rltb (x y : R) : bool := if Rlt_dec x y then true else false.
Definition Reqb (x y : R) : bool := if Req_dec_T x y then true else false.

(** ** Extended reals: the values of a float *)

Inductive xreal : Type :=
| Fin (r : R)
| PInf
| NInf
| NaN.

Definition xinf (positive : bool) : xreal := if positive then PInf else NInf.

Definition xis_zero (a : xreal) : bool :=
  match a with Fin r => Reqb r 0 | _ => false end.

Definition xneg (a : xreal) : xreal :=
  match a with
  | Fin r => Fin (- r)
  | PInf => NInf
  | NInf => PInf
  | NaN => NaN
  end.

Definition xadd (a b : xreal) : xreal :=
  match a, b with
  | NaN, _ | _, NaN => NaN
  | Fin x, Fin y => Fin (x + y)
  | PInf, NInf | NInf, PInf => NaN
  | PInf, _ | _, PInf => PInf
  | NInf, _ | _, NInf => NInf
  end.

Definition xsub (a b : xreal) : xreal := xadd a (xneg b).

(** An infinity of sign [positive] times the real [r]: NaN at zero. *)
Definition xmul_inf (positive : bool) (r : R) : xreal :=
  if Reqb r 0 then NaN else xinf (Bool.eqb positive (Rltb 0 r)).

Definition xmul (a b : xreal) : xreal :=
  match a, b with
  | NaN, _ | _, NaN => NaN
  | Fin x, Fin y => Fin (x * y)
  | PInf, Fin y | Fin y, PInf => xmul_inf true y
  | NInf, Fin y | Fin y, NInf => xmul_inf false y
  | PInf, PInf | NInf, NInf => PInf
  | PInf, NInf | NInf, PInf => NInf
  end.

(** IEEE division: it never fails.  A non-zero real over zero is an
    infinity, zero over zero is NaN, a real over an infinity is zero. *)
Definition xdiv (a b : xreal) : xreal :=
  match a, b with
  | NaN, _ | _, NaN => NaN
  | Fin x, Fin y =>
      if Reqb y 0 then (if Reqb x 0 then NaN else xinf (Rltb 0 x))
      else Fin (x / y)
  | Fin _, _ => Fin 0
  | PInf, Fin y => xinf (negb (Rltb y 0))
  | NInf, Fin y => xinf (Rltb y 0)
  | _, _ => NaN
  end.

Definition xsqrt (a : xreal) : xreal :=
  match a with
  | Fin x => if Rltb x 0 then NaN else Fin (sqrt x)
  | PInf => PInf
  | NInf | NaN => NaN
  end.

(** [a > b]; every comparison with NaN is false. *)
Definition xgt (a b : xreal) : bool :=
  match a, b with
  | NaN, _ | _, NaN => false
  | Fin x, Fin y => Rltb y x
  | PInf, PInf | NInf, _ | _, PInf => false
  | PInf, _ | _, NInf => true
  end.

(** ** Python and numpy scalars *)

Inductive num : Type :=
| PyFloat (x : xreal)      (* a Python float, or a Python int in arithmetic *)
| NpFloat64 (x : xreal).   (* a numpy.float64 *)

Definition value (a : num) : xreal :=
  match a with PyFloat x | NpFloat64 x => x end.

(** A Python int.  The code uses ints ([n], the literals 0, 1, 2) only
    as operands of float arithmetic, of [/] (true division: a float) and
    of [>]; there they behave as the Python float of the same value. *)
Definition py_int (z : Z) : num := PyFloat (Fin (IZR z)).

(** The type of the result of a binary operation: numpy's [float64]
    as soon as one operand is one. *)
Definition join (a b : num) (x : xreal) : num :=
  match a, b with
  | PyFloat _, PyFloat _ => PyFloat x
  | _, _ => NpFloat64 x
  end.

Definition add (a b : num) : num := join a b (xadd (value a) (value b)).
Definition sub (a b : num) : num := join a b (xsub (value a) (value b)).
Definition mul (a b : num) : num := join a b (xmul (value a) (value b)).

(** [a ** 2] *)
Definition pow2 (a : num) : num := join a a (xmul (value a) (value a)).

Definition gt (a b : num) : bool := xgt (value a) (value b).

Definition np_sqrt (a : num) : num := NpFloat64 (xsqrt (value a)).

(** ** Exceptions and the two monads *)

Inductive exn : Type := ZeroDivisionError | ValueError.

(** Evaluation of an expression: an exception or a value. *)
Definition E (A : Type) : Type := (exn + A)%type.

(** [a / b]: between two Python scalars a zero divisor raises; as soon
    as one operand is a numpy [float64] the division is numpy's. *)
Definition truediv (a b : num) : E num :=
  match a, b with
  | PyFloat x, PyFloat y =>
      if xis_zero y then inl ZeroDivisionError else inr (PyFloat (xdiv x y))
  | _, _ => inr (NpFloat64 (xdiv (value a) (value b)))
  end.

Class Monad (m : Type -> Type) : Type := {
  ret : forall {A : Type}, A -> m A;
  bind : forall {A B : Type}, m A -> (A -> m B) -> m B
}.

Declare Scope py_scope.
Delimit Scope py_scope with py.
Notation "x <- c ;; k" := (bind c (fun x => k))
  (at level 61, c at next level, right associativity) : py_scope.
Notation "c ;; k" := (bind c (fun _ => k))
  (at level 61, right associativity) : py_scope.

#[global] Instance Monad_E : Monad E := {
  ret := fun A a => inr a;
  bind := fun A B c k => match c with inl e => inl e | inr a => k a end
}.

(** ** numpy arrays *)

Definition ndarray : Type := list xreal.

Definition len (a : ndarray) : Z := Z.of_nat (length a).

(** [np.sum(a)] *)
Definition np_sum (a : ndarray) : num := NpFloat64 (fold_left xadd a (Fin 0)).

(** [np.mean(a)]: the sum over the count; NaN (0/0) on an empty array. *)
Definition np_mean (a : ndarray) : num :=
  NpFloat64 (xdiv (value (np_sum a)) (Fin (IZR (len a)))).

(** [a - m] and [a ** 2], element by element. *)
Definition arr_sub (a : ndarray) (m : num) : ndarray :=
  map (fun x => xsub x (value m)) a.
Definition arr_pow2 (a : ndarray) : ndarray := map (fun x => xmul x x) a.

(** [np.var(a, ddof=ddof)]: the squared deviations from the mean, summed,
    over [max(n - ddof, 0)]. *)
Definition np_var (a : ndarray) (ddof : Z) : num :=
  NpFloat64 (xdiv (value (np_sum (arr_pow2 (arr_sub a (np_mean a)))))
                  (Fin (IZR (Z.max (len a - ddof) 0)))).

(** ** The estimator object *)

Record BayesianNormalEstimator : Type := mkEstimator {
  prior_mu : num;
  prior_sigma : num;
  prior_alpha : num;
  prior_beta : num;
  posterior_mu : num;
  posterior_sigma : num;
  posterior_alpha : num;
  posterior_beta : num;
  data : ndarray
}.

(** A method body: it runs on [self], may write its fields, and ends
    with a value or an exception.  The fields written before an
    exception stay written. *)
Definition M (A : Type) : Type :=
  BayesianNormalEstimator -> BayesianNormalEstimator * E A.

#[global] Instance Monad_M : Monad M := {
  ret := fun A a self => (self, inr a);
  bind := fun A B c k self =>
    match c self with
    | (self', inl e) => (self', inl e)
    | (self', inr a) => k a self'
    end
}.

(** Reading [self], evaluating an expression, assigning to a field. *)
Definition get_self : M BayesianNormalEstimator := fun self => (self, inr self).

Definition eval {A : Type} (e : E A) : M A := fun self => (self, e).

Definition set_data (v : ndarray) : M unit := fun self =>
  (mkEstimator (prior_mu self) (prior_sigma self) (prior_alpha self) (prior_beta self)
     (posterior_mu self) (posterior_sigma self) (posterior_alpha self) (posterior_beta self)
     v, inr tt).

Definition set_posterior_mu (v : num) : M unit := fun self =>
  (mkEstimator (prior_mu self) (prior_sigma self) (prior_alpha self) (prior_beta self)
     v (posterior_sigma self) (posterior_alpha self) (posterior_beta self)
     (data self), inr tt).

Definition set_posterior_sigma (v : num) : M unit := fun self =>
  (mkEstimator (prior_mu self) (prior_sigma self) (prior_alpha self) (prior_beta self)
     (posterior_mu self) v (posterior_alpha self) (posterior_beta self)
     (data self), inr tt).

Definition set_posterior_alpha (v : num) : M unit := fun self =>
  (mkEstimator (prior_mu self) (prior_sigma self) (prior_alpha self) (prior_beta self)
     (posterior_mu self) (posterior_sigma self) v (posterior_beta self)
     (data self), inr tt).

Definition set_posterior_beta (v : num) : M unit := fun self =>
  (mkEstimator (prior_mu self) (prior_sigma self) (prior_alpha self) (prior_beta self)
     (posterior_mu self) (posterior_sigma self) (posterior_alpha self) v
     (data self), inr tt).

(** The state and the outcome of running a method. *)
Definition state_after {A : Type} (c : M A) (self : BayesianNormalEstimator)
  : BayesianNormalEstimator := fst (c self).
Definition outcome {A : Type} (c : M A) (self : BayesianNormalEstimator)
  : E A := snd (c self).

(** [BayesianNormalEstimator.__init__]: the posterior starts as a copy
    of the prior, the data as the empty list. *)
Definition __init__ (prior_mu prior_sigma prior_alpha prior_beta : num)
  : BayesianNormalEstimator :=
  mkEstimator prior_mu prior_sigma prior_alpha prior_beta
              prior_mu prior_sigma prior_alpha prior_beta [].

Local Open Scope py_scope.

(** [BayesianNormalEstimator.update_posterior] *)
Definition update_posterior (data : ndarray) : M unit :=
  set_data data ;;
  let n := len data in
  let sample_mean := np_mean data in
  let sample_var := if (1 <? n)%Z then np_var data 1 else py_int 0 in
  self <- get_self ;;
  (* prior_precision = 1 / (self.prior_sigma ** 2) *)
  prior_precision <- eval (truediv (py_int 1) (pow2 (prior_sigma self))) ;;
  (* posterior_precision =
       prior_precision + n / sample_var if sample_var > 0 else prior_precision *)
  posterior_precision <-
    eval (if gt sample_var (py_int 0)
          then q <- truediv (py_int n) sample_var ;; ret (add prior_precision q)
          else ret prior_precision) ;;
  (* self.posterior_sigma = 1 / np.sqrt(posterior_precision) *)
  s <- eval (truediv (py_int 1) (np_sqrt posterior_precision)) ;;
  set_posterior_sigma s ;;
  (* self.posterior_mu =
       (prior_precision * self.prior_mu + n * sample_mean / sample_var)
         / posterior_precision if sample_var > 0 else self.prior_mu *)
  m <- eval (if gt sample_var (py_int 0)
             then q <- truediv (mul (py_int n) sample_mean) sample_var ;;
                  truediv (add (mul prior_precision (prior_mu self)) q)
                          posterior_precision
             else ret (prior_mu self)) ;;
  set_posterior_mu m ;;
  (* self.posterior_alpha = self.prior_alpha + n / 2 *)
  h <- eval (truediv (py_int n) (py_int 2)) ;;
  set_posterior_alpha (add (prior_alpha self) h) ;;
  if (1 <? n)%Z then
    (* ss = np.sum((data - sample_mean) ** 2) *)
    let ss := np_sum (arr_pow2 (arr_sub data sample_mean)) in
    (* self.posterior_beta = self.prior_beta + ss / 2
         + (prior_precision * n * (sample_mean - self.prior_mu) ** 2)
           / (2 * posterior_precision) *)
    a <- eval (truediv ss (py_int 2)) ;;
    b <- eval (truediv (mul (mul prior_precision (py_int n))
                            (pow2 (sub sample_mean (prior_mu self))))
                       (mul (py_int 2) posterior_precision)) ;;
    set_posterior_beta (add (add (prior_beta self) a) b)
  else
    set_posterior_beta (prior_beta self).

(** [BayesianNormalEstimator.sample_posterior].  numpy's samplers draw
    from the process-global generator, whose state [g] is threaded
    through the calls; they fail with an exception or return the array
    of draws and the next generator state. *)
Section Sampling.

Variable rng : Type.
(* np.random.gamma(shape, scale, size) *)
Variable np_random_gamma : xreal -> xreal -> Z -> rng -> E (ndarray * rng).
(* np.random.normal(loc, scale, size) *)
Variable np_random_normal : xreal -> xreal -> Z -> rng -> E (ndarray * rng).

(** [1 / np.sqrt(a)], element by element: numpy's division. *)
Definition arr_inv_sqrt (a : ndarray) : ndarray :=
  map (fun x => xdiv (Fin 1) (xsqrt x)) a.

Definition sample_posterior (n_samples : Z) (g : rng)
  : M (ndarray * ndarray * rng) :=
  self <- get_self ;;
  (* precision_samples =
       np.random.gamma(self.posterior_alpha, 1/self.posterior_beta, n_samples) *)
  scale <- eval (truediv (py_int 1) (posterior_beta self)) ;;
  r1 <- eval (np_random_gamma (value (posterior_alpha self)) (value scale)
                              n_samples g) ;;
  let precision_samples := fst r1 in
  (* sigma_samples = 1 / np.sqrt(precision_samples) *)
  let sigma_samples := arr_inv_sqrt precision_samples in
  (* mu_samples =
       np.random.normal(self.posterior_mu, self.posterior_sigma, n_samples) *)
  r2 <- eval (np_random_normal (value (posterior_mu self))
                               (value (posterior_sigma self))
                               n_samples (snd r1)) ;;
  let mu_samples := fst r2 in
  ret (mu_samples, sigma_samples, snd r2).

End Sampling.

(** [BayesianNormalEstimator.posterior_predictive].  scipy's
    [stats.t.pdf(x, df, loc, scale)] is evaluated at each query point. *)
Section Predictive.

Variable stats_t_pdf : xreal -> xreal -> xreal -> xreal -> xreal.

Definition posterior_predictive (x_new : ndarray) : M ndarray :=
  self <- get_self ;;
  (* nu = 2 * self.posterior_alpha *)
  let nu := mul (py_int 2) (posterior_alpha self) in
  (* scale = np.sqrt(self.posterior_beta * (1 + 1) / self.posterior_alpha) *)
  q <- eval (truediv (mul (posterior_beta self) (add (py_int 1) (py_int 1)))
                     (posterior_alpha self)) ;;
  let scale := np_sqrt q in
  ret (map (fun x => stats_t_pdf x (value nu) (value (posterior_mu self))
                                 (value scale))
           x_new).

End Predictive.

Local Close Scope py_scope.

(** ** Quantities the statements are written with *)

(** The source's [sample_var]: numpy's variance, or the int 0. *)
Definition sample_var (d : ndarray) : num :=
  if (1 <? len d)%Z then np_var d 1 else py_int 0.

(** The source's [ss]. *)
Definition sum_sq_dev (d : ndarray) : num :=
  np_sum (arr_pow2 (arr_sub d (np_mean d))).

(** The source's test [sample_var > 0]. *)
Definition informative (d : ndarray) : bool := gt (sample_var d) (py_int 0).

(** [self.prior_sigma] is a Python float whose square is zero: the
    divisor of [prior_precision = 1 / (self.prior_sigma ** 2)]. *)
Definition zero_prior_sigma (self : BayesianNormalEstimator) : bool :=
  match prior_sigma self with
  | PyFloat x => xis_zero (xmul x x)
  | NpFloat64 _ => false
  end.

(** The values the posterior fields get when the update goes through,
    from the value [p0] of [prior_precision]. *)
Definition new_precision (p0 : xreal) (d : ndarray) : xreal :=
  if informative d
  then xadd p0 (xdiv (Fin (IZR (len d))) (value (sample_var d)))
  else p0.

Definition new_sigma (p0 : xreal) (d : ndarray) : num :=
  NpFloat64 (xdiv (Fin 1) (xsqrt (new_precision p0 d))).

Definition new_mu (p0 : xreal) (self : BayesianNormalEstimator) (d : ndarray) : num :=
  if informative d
  then NpFloat64
         (xdiv (xadd (xmul p0 (value (prior_mu self)))
                     (xdiv (xmul (Fin (IZR (len d))) (value (np_mean d)))
                           (value (sample_var d))))
               (new_precision p0 d))
  else prior_mu self.

Definition new_alpha (self : BayesianNormalEstimator) (d : ndarray) : num :=
  add (prior_alpha self) (PyFloat (Fin (IZR (len d) / 2))).

Definition new_beta (p0 : xreal) (self : BayesianNormalEstimator) (d : ndarray) : num :=
  if (1 <? len d)%Z
  then NpFloat64
         (xadd (xadd (value (prior_beta self))
                     (xdiv (value (sum_sq_dev d)) (Fin 2)))
               (xdiv (xmul (xmul p0 (Fin (IZR (len d))))
                           (xmul (xsub (value (np_mean d)) (value (prior_mu self)))
                                 (xsub (value (np_mean d)) (value (prior_mu self)))))
                     (xmul (Fin 2) (new_precision p0 d))))
  else prior_beta self.

(** [self.posterior_beta] is a zero Python float: the divisor of the
    scale [1/self.posterior_beta] that [sample_posterior] passes on. *)
Definition zero_posterior_beta (self : BayesianNormalEstimator) : bool :=
  match posterior_beta self with
  | PyFloat x => xis_zero x
  | NpFloat64 _ => false
  end.

(** The value of [prior_precision = 1 / (self.prior_sigma ** 2)] when
    the division goes through. *)
Definition prior_precision (self : BayesianNormalEstimator) : xreal :=
  xdiv (Fin 1) (xmul (value (prior_sigma self)) (value (prior_sigma self))).

(** The prior fields of an estimator. *)
Definition priors (self : BayesianNormalEstimator) : num * num * num * num :=
  (prior_mu self, prior_sigma self, prior_alpha self, prior_beta self).

(** A fresh estimator with the priors of [self]. *)
Definition fresh (self : BayesianNormalEstimator) : BayesianNormalEstimator :=
  __init__ (prior_mu self) (prior_sigma self) (prior_alpha self) (prior_beta self).

(** The statistics of a sample of reals, in the words of the
    specification: the mean, the sum of squared deviations from it, and
    the sample variance with Bessel's correction. *)
Definition Rsum (l : list R) : R := fold_left Rplus l 0.

Definition mean_R (l : list R) : R := Rsum l / INR (length l).

Definition sq_dev_R (l : list R) : R :=
  Rsum (map (fun x => (x - mean_R l) * (x - mean_R l)) l).

Definition variance_R (l : list R) : R := sq_dev_R l / (INR (length l) - 1).

(** The location-scale Student-t density that [scipy.stats.t.pdf]
    documents: [c df * (1 + t^2/df) ^ (-(df+1)/2) / scale] at
    [t = (x - loc) / scale].  The normalising constant
    [Gamma((df+1)/2) / (sqrt(pi df) Gamma(df/2))] is the parameter [c]
    (there is no Gamma function in the standard library of reals). *)
Definition student_t_pdf (c : R -> R) (df loc scale x : R) : R :=
  c df * Rpower (1 + ((x - loc) / scale) * ((x - loc) / scale) / df)
                (- (df + 1) / 2) / scale.

(** ** Instances of the library parameters, for the examples *)

(** A generator with no randomness left: every draw is the first
    parameter of the distribution.  It checks its arguments the way
    numpy does: a negative size, and a shape or scale that [accepts]
    refuses, raise [ValueError]. *)
Definition constant_sampler (accepts : xreal -> xreal -> bool)
  (p1 p2 : xreal) (size : Z) (g : unit) : E (ndarray * unit) :=
  if ((size <? 0)%Z || negb (accepts p1 p2))%bool then inl ValueError
  else inr (repeat p1 (Z.to_nat size), g).

(** numpy refuses a negative shape or scale. *)
Definition nonnegative (a : xreal) : bool := negb (xgt (Fin 0) a).
Definition gamma_accepts (shape scale : xreal) : bool :=
  (nonnegative shape && nonnegative scale)%bool.
Definition normal_accepts (loc scale : xreal) : bool := nonnegative scale.

(** A total Student-t density: NaN outside the finite arguments with
    positive degrees of freedom and scale. *)
Definition t_pdf_with (c : R -> R) (x df loc scale : xreal) : xreal :=
  match x, df, loc, scale with
  | Fin x, Fin df, Fin loc, Fin scale =>
      if (Rltb 0 df && Rltb 0 scale)%bool
      then Fin (student_t_pdf c df loc scale x) else NaN
  | _, _, _, _ => NaN
  end.

(** At one degree of freedom the Student-t law is the Cauchy law,
    whose normalising constant is [1 / PI]. *)
Definition cauchy_constant (df : R) : R := / PI.

(** ** The rest of the module *)


(** [self.posterior_alpha] is a zero Python float under a Python float
    [self.posterior_beta]: the divisor of the predictive scale
    [self.posterior_beta * (1 + 1) / self.posterior_alpha] in a
    division between Python scalars. *)
Definition zero_posterior_alpha (self : BayesianNormalEstimator) : bool :=
  match posterior_beta self, posterior_alpha self with
  | PyFloat _, PyFloat a => xis_zero a
  | _, _ => false
  end.

(** [a <= b]; every comparison with NaN is false. *)
Definition xle (a b : xreal) : bool :=
  match a, b with
  | NaN, _ | _, NaN => false
  | Fin x, Fin y => negb (Rltb y x)
  | NInf, _ | _, PInf => true
  | _, _ => false
  end.

Definition le (a b : num) : bool := xle (value a) (value b).

(** [np.std(a, ddof=ddof)]: the square root of the variance. *)
Definition np_std (a : ndarray) (ddof : Z) : num := np_sqrt (np_var a ddof).

(** The float literal [1.96]. *)
Definition z_95 : num := PyFloat (Fin (196 / 100)).

Local Open Scope py_scope.

(** The frequentist estimates of [compare_approaches]: its local
    variables [freq_mu], [freq_sigma], [mu_se] and [mu_ci_freq], and the
    test [mu_ci_freq[0] <= true_mu <= mu_ci_freq[1]] it prints. *)
Definition freq_mu (data : ndarray) : num := np_mean data.

Definition freq_sigma (data : ndarray) : num := np_std data 1.

(* mu_se = freq_sigma / np.sqrt(n) *)
Definition mu_se (data : ndarray) : E num :=
  truediv (freq_sigma data) (np_sqrt (py_int (len data))).

(* mu_ci_freq = [freq_mu - 1.96 * mu_se, freq_mu + 1.96 * mu_se] *)
Definition mu_ci_freq (data : ndarray) : E (num * num) :=
  se <- mu_se data ;;
  ret (sub (freq_mu data) (mul z_95 se), add (freq_mu data) (mul z_95 se)).

Definition freq_contains (data : ndarray) (true_mu : num) : E bool :=
  ci <- mu_ci_freq data ;;
  ret (le (fst ci) true_mu && le true_mu (snd ci))%bool.

(** [range(start, stop, step)] on Python ints, as the list of its
    elements: a zero step raises [ValueError]. *)
Definition py_range (start stop step : Z) : E (list Z) :=
  if (step =? 0)%Z then inl ValueError
  else
    let count :=
      if (0 <? step)%Z then ((stop - start + step - 1) / step)%Z
      else ((start - stop - step - 1) / (- step))%Z in
    inr (map (fun k => (start + Z.of_nat k * step)%Z) (seq 0 (Z.to_nat count))).

(** The indices at which [create_bayesian_plots] reads [mu_samples] and
    [sigma_samples] for its predictive curves:
    [range(0, len(mu_samples), len(mu_samples)//n_pred_samples)] with
    [n_pred_samples = 100]. *)
Definition n_pred_samples : Z := 100.

Definition pred_sample_indices (mu_samples : ndarray) : E (list Z) :=
  py_range 0 (len mu_samples) (len mu_samples / n_pred_samples)%Z.

(** The numerical session of [demonstrate_bayesian_estimation]: the
    seeded draw of the 20 observations, the construction of the
    estimator, the update and the 5000 posterior draws.  What the
    function prints and plots from these values is outside the
    embedding.  The estimator, the observations and the samples are
    locals of the function: the result is an exception, or their values
    where the printing and plotting start. *)
Section Demonstration.

Variable rng : Type.
(* np.random.seed(seed): the generator state it installs *)
Variable np_random_seed : Z -> rng.
Variable np_random_gamma : xreal -> xreal -> Z -> rng -> E (ndarray * rng).
Variable np_random_normal : xreal -> xreal -> Z -> rng -> E (ndarray * rng).

Definition true_mu : xreal := Fin (25 / 10).
Definition true_sigma : xreal := Fin (12 / 10).
Definition n_data_points : Z := 20.

Definition demonstrate_bayesian_estimation
  : E (BayesianNormalEstimator * ndarray * (ndarray * ndarray)) :=
  (* np.random.seed(42)
     observed_data = np.random.normal(true_mu, true_sigma, n_data_points) *)
  r0 <- np_random_normal true_mu true_sigma n_data_points (np_random_seed 42) ;;
  let observed_data := fst r0 in
  (* estimator = BayesianNormalEstimator(prior_mu=0.0, prior_sigma=2.0,
                                        prior_alpha=1.0, prior_beta=1.0) *)
  let estimator :=
    __init__ (PyFloat (Fin 0)) (PyFloat (Fin 2)) (PyFloat (Fin 1)) (PyFloat (Fin 1)) in
  (* estimator.update_posterior(observed_data)
     mu_samples, sigma_samples = estimator.sample_posterior(5000) *)
  match (update_posterior observed_data ;;
         sample_posterior rng np_random_gamma np_random_normal 5000 (snd r0))
          estimator with
  | (_, inl e) => inl e
  | (estimator', inr (mu_samples, sigma_samples, _)) =>
      inr (estimator', observed_data, (mu_samples, sigma_samples))
  end.

End Demonstration.

Local Close Scope py_scope.

(** ** The update in binary64

    The definitions above compute in exact arithmetic.  What
    [update_posterior] leaves in the posterior fields, and whether it
    returns at all, depends on the rounding and on the range of a
    float: this module embeds the method again on IEEE 754 binary64
    numbers (Rocq's primitive floats), for the properties that the
    rounding decides.

    - [+], [-], [*], [/] and [np.sqrt] on scalars, and the element-wise
      [data - sample_mean] and [** 2] on arrays, are the correctly
      rounded binary64 operations.
    - A Python float squared, [x ** 2], is C's [pow(x, 2.0)], taken as
      the correctly rounded square; when [x] is finite and the square
      overflows, Python raises [OverflowError].  The square of a numpy
      [float64] overflows to infinity without raising.
    - Python's [/] between two Python scalars raises
      [ZeroDivisionError] on a divisor [0.0] or [-0.0].
    - The reductions [np.mean], [np.var] and [np.sum] add the elements
      of an array in an order of numpy's own; they are parameters of the
      method.  The left-to-right reductions [seq_mean], [seq_var] and
      [seq_sum] instantiate them in the examples. *)
Module Binary64.

Import Floats.
Local Open Scope float_scope.
Local Open Scope py_scope.

Inductive num : Type :=
| PyFloat (x : float)      (* a Python float, or a Python int in arithmetic *)
| NpFloat64 (x : float).   (* a numpy.float64 *)

Definition value (a : num) : float :=
  match a with PyFloat x | NpFloat64 x => x end.

(** The float of a Python int (here a length, or a literal). *)
Definition float_of_int (z : Z) : float := of_uint63 (Uint63.of_Z z).

Definition py_int (z : Z) : num := PyFloat (float_of_int z).

Definition join (a b : num) (x : float) : num :=
  match a, b with
  | PyFloat _, PyFloat _ => PyFloat x
  | _, _ => NpFloat64 x
  end.

Definition add (a b : num) : num := join a b (value a + value b).
Definition sub (a b : num) : num := join a b (value a - value b).
Definition mul (a b : num) : num := join a b (value a * value b).

(** [a > b]: false when either is NaN. *)
Definition gt (a b : num) : bool := value b <? value a.

Definition np_sqrt (a : num) : num := NpFloat64 (sqrt (value a)).

Inductive exn : Type := ZeroDivisionError | OverflowError.

Definition E (A : Type) : Type := (exn + A)%type.

#[export] Instance Monad_E : Monad E := {
  ret := fun A a => inr a;
  bind := fun A B c k => match c with inl e => inl e | inr a => k a end
}.

(** [a / b] *)
Definition truediv (a b : num) : E num :=
  match a, b with
  | PyFloat x, PyFloat y =>
      if is_zero y then inl ZeroDivisionError else inr (PyFloat (x / y))
  | _, _ => inr (NpFloat64 (value a / value b))
  end.

(** [a ** 2] *)
Definition pow2 (a : num) : E num :=
  match a with
  | PyFloat x =>
      if (is_finite x && is_infinity (x * x))%bool then inl OverflowError
      else inr (PyFloat (x * x))
  | NpFloat64 x => inr (NpFloat64 (x * x))
  end.

Definition ndarray : Type := list float.

Definition len (a : ndarray) : Z := Z.of_nat (length a).

(** [a - m] and [a ** 2], element by element. *)
Definition arr_sub (a : ndarray) (m : num) : ndarray :=
  map (fun x => x - value m) a.
Definition arr_pow2 (a : ndarray) : ndarray := map (fun x => x * x) a.

Record BayesianNormalEstimator : Type := mkEstimator {
  prior_mu : num;
  prior_sigma : num;
  prior_alpha : num;
  prior_beta : num;
  posterior_mu : num;
  posterior_sigma : num;
  posterior_alpha : num;
  posterior_beta : num;
  data : ndarray
}.

Definition M (A : Type) : Type :=
  BayesianNormalEstimator -> BayesianNormalEstimator * E A.

#[export] Instance Monad_M : Monad M := {
  ret := fun A a self => (self, inr a);
  bind := fun A B c k self =>
    match c self with
    | (self', inl e) => (self', inl e)
    | (self', inr a) => k a self'
    end
}.

Definition get_self : M BayesianNormalEstimator := fun self => (self, inr self).

Definition eval {A : Type} (e : E A) : M A := fun self => (self, e).

Definition set_data (v : ndarray) : M unit := fun self =>
  (mkEstimator (prior_mu self) (prior_sigma self) (prior_alpha self) (prior_beta self)
     (posterior_mu self) (posterior_sigma self) (posterior_alpha self) (posterior_beta self)
     v, inr tt).

Definition set_posterior_mu (v : num) : M unit := fun self =>
  (mkEstimator (prior_mu self) (prior_sigma self) (prior_alpha self) (prior_beta self)
     v (posterior_sigma self) (posterior_alpha self) (posterior_beta self)
     (data self), inr tt).

Definition set_posterior_sigma (v : num) : M unit := fun self =>
  (mkEstimator (prior_mu self) (prior_sigma self) (prior_alpha self) (prior_beta self)
     (posterior_mu self) v (posterior_alpha self) (posterior_beta self)
     (data self), inr tt).

Definition set_posterior_alpha (v : num) : M unit := fun self =>
  (mkEstimator (prior_mu self) (prior_sigma self) (prior_alpha self) (prior_beta self)
     (posterior_mu self) (posterior_sigma self) v (posterior_beta self)
     (data self), inr tt).

Definition set_posterior_beta (v : num) : M unit := fun self =>
  (mkEstimator (prior_mu self) (prior_sigma self) (prior_alpha self) (prior_beta self)
     (posterior_mu self) (posterior_sigma self) (posterior_alpha self) v
     (data self), inr tt).

Definition state_after {A : Type} (c : M A) (self : BayesianNormalEstimator)
  : BayesianNormalEstimator := fst (c self).
Definition outcome {A : Type} (c : M A) (self : BayesianNormalEstimator)
  : E A := snd (c self).

(** [BayesianNormalEstimator.__init__], on Python floats. *)
Definition __init__ (prior_mu prior_sigma prior_alpha prior_beta : float)
  : BayesianNormalEstimator :=
  mkEstimator (PyFloat prior_mu) (PyFloat prior_sigma)
              (PyFloat prior_alpha) (PyFloat prior_beta)
              (PyFloat prior_mu) (PyFloat prior_sigma)
              (PyFloat prior_alpha) (PyFloat prior_beta) [].

Section Update.

(* np.mean(a), np.var(a, ddof=ddof), np.sum(a) *)
Variable np_mean : ndarray -> float.
Variable np_var : ndarray -> Z -> float.
Variable np_sum : ndarray -> float.

(** [BayesianNormalEstimator.update_posterior] *)
Definition update_posterior (data : ndarray) : M unit :=
  set_data data ;;
  let n := len data in
  let sample_mean := NpFloat64 (np_mean data) in
  let sample_var := if (1 <? n)%Z then NpFloat64 (np_var data 1) else py_int 0 in
  self <- get_self ;;
  (* prior_precision = 1 / (self.prior_sigma ** 2) *)
  prior_precision <-
    eval (s2 <- pow2 (prior_sigma self) ;; truediv (py_int 1) s2) ;;
  (* posterior_precision =
       prior_precision + n / sample_var if sample_var > 0 else prior_precision *)
  posterior_precision <-
    eval (if gt sample_var (py_int 0)
          then q <- truediv (py_int n) sample_var ;; ret (add prior_precision q)
          else ret prior_precision) ;;
  (* self.posterior_sigma = 1 / np.sqrt(posterior_precision) *)
  s <- eval (truediv (py_int 1) (np_sqrt posterior_precision)) ;;
  set_posterior_sigma s ;;
  (* self.posterior_mu =
       (prior_precision * self.prior_mu + n * sample_mean / sample_var)
         / posterior_precision if sample_var > 0 else self.prior_mu *)
  m <- eval (if gt sample_var (py_int 0)
             then q <- truediv (mul (py_int n) sample_mean) sample_var ;;
                  truediv (add (mul prior_precision (prior_mu self)) q)
                          posterior_precision
             else ret (prior_mu self)) ;;
  set_posterior_mu m ;;
  (* self.posterior_alpha = self.prior_alpha + n / 2 *)
  h <- eval (truediv (py_int n) (py_int 2)) ;;
  set_posterior_alpha (add (prior_alpha self) h) ;;
  if (1 <? n)%Z then
    (* ss = np.sum((data - sample_mean) ** 2) *)
    let ss := NpFloat64 (np_sum (arr_pow2 (arr_sub data sample_mean))) in
    (* self.posterior_beta = self.prior_beta + ss / 2
         + (prior_precision * n * (sample_mean - self.prior_mu) ** 2)
           / (2 * posterior_precision) *)
    a <- eval (truediv ss (py_int 2)) ;;
    b <- eval (sq <- pow2 (sub sample_mean (prior_mu self)) ;;
               truediv (mul (mul prior_precision (py_int n)) sq)
                       (mul (py_int 2) posterior_precision)) ;;
    set_posterior_beta (add (add (prior_beta self) a) b)
  else
    set_posterior_beta (prior_beta self).

(** The source's [sample_var], its test [sample_var > 0] and its
    [ss]. *)
Definition sample_var (d : ndarray) : num :=
  if (1 <? len d)%Z then NpFloat64 (np_var d 1) else py_int 0.

Definition informative (d : ndarray) : bool := gt (sample_var d) (py_int 0).

Definition sum_sq_dev (d : ndarray) : float :=
  np_sum (arr_pow2 (arr_sub d (NpFloat64 (np_mean d)))).

(** The values the posterior fields get when the update goes through,
    from the value [p0] of [prior_precision]: each line is the
    expression of the source, in its order of evaluation. *)
Definition new_precision (p0 : float) (d : ndarray) : float :=
  if informative d
  then p0 + float_of_int (len d) / value (sample_var d)
  else p0.

Definition new_sigma (p0 : float) (d : ndarray) : num :=
  NpFloat64 (1 / sqrt (new_precision p0 d)).

Definition new_mu (p0 : float) (self : BayesianNormalEstimator) (d : ndarray) : num :=
  if informative d
  then NpFloat64
         ((p0 * value (prior_mu self)
           + float_of_int (len d) * np_mean d / value (sample_var d))
          / new_precision p0 d)
  else prior_mu self.

Definition new_alpha (self : BayesianNormalEstimator) (d : ndarray) : num :=
  add (prior_alpha self) (PyFloat (float_of_int (len d) / 2)).

Definition new_beta (p0 : float) (self : BayesianNormalEstimator) (d : ndarray) : num :=
  if (1 <? len d)%Z
  then NpFloat64
         (value (prior_beta self) + sum_sq_dev d / 2
          + p0 * float_of_int (len d)
            * ((np_mean d - value (prior_mu self))
               * (np_mean d - value (prior_mu self)))
            / (2 * new_precision p0 d))
  else prior_beta self.

End Update.

(** [prior_precision = 1 / (self.prior_sigma ** 2)]: the only statement
    of [update_posterior] that can raise. *)
Definition prior_precision (self : BayesianNormalEstimator) : E num :=
  s2 <- pow2 (prior_sigma self) ;; truediv (py_int 1) s2.

(** Left-to-right reductions, for the examples. *)
Definition seq_sum (a : ndarray) : float := fold_left PrimFloat.add a 0.

Definition seq_mean (a : ndarray) : float := seq_sum a / float_of_int (len a).

Definition seq_var (a : ndarray) (ddof : Z) : float :=
  seq_sum (arr_pow2 (arr_sub a (NpFloat64 (seq_mean a))))
  / float_of_int (Z.max (len a - ddof) 0).

End Binary64.

(** * Properties *)

(** ** Decisions on the reals *)

Lemma Rltb_true (x y : R) : x < y -> Rltb x y = true.
Proof. intros H; unfold Rltb; destruct (Rlt_dec x y); [reflexivity | contradiction]. Qed.

Lemma Rltb_false (x y : R) : ~ x < y -> Rltb x y = false.
Proof. intros H; unfold Rltb; destruct (Rlt_dec x y); [contradiction | reflexivity]. Qed.

Lemma Rltb_spec (x y : R) : reflect (x < y) (Rltb x y).
Proof. unfold Rltb; destruct (Rlt_dec x y); constructor; assumption. Qed.

Lemma Reqb_true (x y : R) : x = y -> Reqb x y = true.
Proof. intros H; unfold Reqb; destruct (Req_dec_T x y); [reflexivity | contradiction]. Qed.

Lemma Reqb_false (x y : R) : x <> y -> Reqb x y = false.
Proof. intros H; unfold Reqb; destruct (Req_dec_T x y); [contradiction | reflexivity]. Qed.

(** ** Scalars: which divisions can raise *)

Lemma truediv_np_r (a : num) (x : xreal) :
  truediv a (NpFloat64 x) = inr (NpFloat64 (xdiv (value a) x)).
Proof. destruct a; reflexivity. Qed.

Lemma truediv_np_l (x : xreal) (b : num) :
  truediv (NpFloat64 x) b = inr (NpFloat64 (xdiv x (value b))).
Proof. destruct b; reflexivity. Qed.

Lemma truediv_py (x y : xreal) :
  truediv (PyFloat x) (PyFloat y) =
  if xis_zero y then inl ZeroDivisionError else inr (PyFloat (xdiv x y)).
Proof. reflexivity. Qed.

Lemma add_np_r (a : num) (x : xreal) :
  add a (NpFloat64 x) = NpFloat64 (xadd (value a) x).
Proof. destruct a; reflexivity. Qed.

Lemma mul_np_r (a : num) (x : xreal) :
  mul a (NpFloat64 x) = NpFloat64 (xmul (value a) x).
Proof. destruct a; reflexivity. Qed.

Lemma sub_np_l (x : xreal) (b : num) :
  sub (NpFloat64 x) b = NpFloat64 (xsub x (value b)).
Proof. destruct b; reflexivity. Qed.

Lemma pow2_np (x : xreal) : pow2 (NpFloat64 x) = NpFloat64 (xmul x x).
Proof. reflexivity. Qed.

Lemma value_add (a b : num) : value (add a b) = xadd (value a) (value b).
Proof. destruct a, b; reflexivity. Qed.

Lemma value_mul (a b : num) : value (mul a b) = xmul (value a) (value b).
Proof. destruct a, b; reflexivity. Qed.

Lemma xdiv_fin (x y : R) : y <> 0 -> xdiv (Fin x) (Fin y) = Fin (x / y).
Proof. intros H; unfold xdiv; rewrite (Reqb_false _ _ H); reflexivity. Qed.

Lemma xsqrt_fin (x : R) : 0 <= x -> xsqrt (Fin x) = Fin (sqrt x).
Proof. intros H; unfold xsqrt; rewrite Rltb_false by lra; reflexivity. Qed.

(** [n / 2] on Python ints never raises. *)
Lemma truediv_int_2 (n : Z) :
  truediv (py_int n) (py_int 2) = inr (PyFloat (Fin (IZR n / 2))).
Proof.
  unfold py_int; rewrite truediv_py; unfold xis_zero.
  rewrite Reqb_false by lra. rewrite xdiv_fin by lra. reflexivity.
Qed.

(** ** The update, step by step *)

Lemma informative_np_var (d : ndarray) :
  informative d = true -> (1 <? len d)%Z = true /\ sample_var d = np_var d 1.
Proof.
  unfold informative, sample_var. destruct (1 <? len d)%Z; [auto |].
  unfold gt, py_int; simpl. rewrite Rltb_false by lra. discriminate.
Qed.

Lemma np_mean_np (d : ndarray) : np_mean d = NpFloat64 (value (np_mean d)).
Proof. reflexivity. Qed.

(** What one call of [update_posterior] does: it records the data, and
    then either the division producing [prior_precision] raises and
    nothing else is written, or all four posterior fields are. *)
Lemma update_posterior_run (d : ndarray) (self : BayesianNormalEstimator) :
  update_posterior d self =
  match truediv (py_int 1) (pow2 (prior_sigma self)) with
  | inl e => (state_after (set_data d) self, inl e)
  | inr pp =>
      (mkEstimator (prior_mu self) (prior_sigma self) (prior_alpha self) (prior_beta self)
         (new_mu (value pp) self d) (new_sigma (value pp) d)
         (new_alpha self d) (new_beta (value pp) self d) d,
       inr tt)
  end.
Proof.
  unfold update_posterior.
  fold (sample_var d). fold (informative d). fold (sum_sq_dev d).
  cbn [bind Monad_M set_data get_self eval state_after fst snd
       prior_mu prior_sigma prior_alpha prior_beta].
  destruct (truediv (py_int 1) (pow2 (prior_sigma self))) as [e | pp]; [reflexivity |].
  rewrite truediv_int_2.
  unfold new_mu, new_sigma, new_alpha, new_beta, new_precision, np_sqrt.
  destruct (informative d) eqn:G.
  - destruct (informative_np_var d G) as [Hn Hv]. rewrite Hn, Hv.
    unfold np_var, sum_sq_dev, np_sum.
    rewrite !truediv_np_r. cbn [bind Monad_E ret].
    rewrite !add_np_r, !truediv_np_r, !truediv_np_l.
    cbn [bind Monad_M set_posterior_sigma set_posterior_mu set_posterior_alpha
         set_posterior_beta fst snd prior_mu prior_sigma prior_alpha prior_beta
         posterior_mu posterior_sigma posterior_alpha posterior_beta data value].
    rewrite (np_mean_np d).
    rewrite !sub_np_l, !pow2_np, !mul_np_r, !truediv_np_l, !add_np_r.
    cbn [bind Monad_M set_posterior_beta fst snd prior_mu prior_sigma prior_alpha prior_beta
         posterior_mu posterior_sigma posterior_alpha posterior_beta data value].
    rewrite !value_mul. reflexivity.
  - cbn [bind Monad_E ret]. rewrite !truediv_np_r.
    cbn [bind Monad_M set_posterior_sigma set_posterior_mu set_posterior_alpha
         set_posterior_beta fst snd prior_mu prior_sigma prior_alpha prior_beta
         posterior_mu posterior_sigma posterior_alpha posterior_beta data value].
    destruct (1 <? len d)%Z; [| reflexivity].
    unfold sum_sq_dev, np_sum at 1. rewrite !truediv_np_l.
    rewrite (np_mean_np d). rewrite !sub_np_l, !pow2_np, !mul_np_r, !truediv_np_l.
    cbn [bind Monad_M set_posterior_beta fst snd prior_mu prior_sigma prior_alpha prior_beta
         posterior_mu posterior_sigma posterior_alpha posterior_beta data value].
    rewrite !add_np_r, ?value_add, ?value_mul. reflexivity.
Qed.

Lemma prior_precision_raises (self : BayesianNormalEstimator) :
  zero_prior_sigma self = true ->
  truediv (py_int 1) (pow2 (prior_sigma self)) = inl ZeroDivisionError.
Proof.
  unfold zero_prior_sigma. destruct (prior_sigma self) as [x | x]; [| discriminate].
  intros H. unfold py_int, pow2, join; cbn [value]. rewrite truediv_py, H. reflexivity.
Qed.

Lemma prior_precision_returns (self : BayesianNormalEstimator) :
  zero_prior_sigma self = false ->
  exists pp, truediv (py_int 1) (pow2 (prior_sigma self)) = inr pp
             /\ value pp = prior_precision self.
Proof.
  unfold zero_prior_sigma, prior_precision.
  destruct (prior_sigma self) as [x | x]; intros H.
  - exists (PyFloat (xdiv (Fin 1) (xmul x x))). split; [| reflexivity].
    unfold py_int, pow2, join; cbn [value]. rewrite truediv_py, H. reflexivity.
  - exists (NpFloat64 (xdiv (Fin 1) (xmul x x))). split; reflexivity.
Qed.

(** The update raises: only the data has been recorded. *)
Lemma update_posterior_raises (d : ndarray) (self : BayesianNormalEstimator) :
  zero_prior_sigma self = true ->
  update_posterior d self = (state_after (set_data d) self, inl ZeroDivisionError).
Proof.
  intros H. rewrite update_posterior_run, (prior_precision_raises self H). reflexivity.
Qed.

(** The update goes through: the four posterior fields are rewritten
    from the priors and the data. *)
Lemma update_posterior_returns (d : ndarray) (self : BayesianNormalEstimator) :
  zero_prior_sigma self = false ->
  update_posterior d self =
  (mkEstimator (prior_mu self) (prior_sigma self) (prior_alpha self) (prior_beta self)
     (new_mu (prior_precision self) self d) (new_sigma (prior_precision self) d)
     (new_alpha self d) (new_beta (prior_precision self) self d) d,
   inr tt).
Proof.
  intros H. rewrite update_posterior_run.
  destruct (prior_precision_returns self H) as (pp & Hpp & Hv).
  rewrite Hpp, Hv. reflexivity.
Qed.

Lemma zero_prior_sigma_init (mu a b : num) (x : xreal) :
  zero_prior_sigma (__init__ mu (PyFloat x) a b) = xis_zero (xmul x x).
Proof. reflexivity. Qed.

(** ** The update never touches the priors *)

Lemma update_posterior_priors (d : ndarray) (self : BayesianNormalEstimator) :
  priors (state_after (update_posterior d) self) = priors self.
Proof.
  unfold state_after. destruct (zero_prior_sigma self) eqn:Hz.
  - rewrite (update_posterior_raises d self Hz). reflexivity.
  - rewrite (update_posterior_returns d self Hz). reflexivity.
Qed.

Lemma update_posterior_outcome (d : ndarray) (self : BayesianNormalEstimator) :
  outcome (update_posterior d) self =
  if zero_prior_sigma self then inl ZeroDivisionError else inr tt.
Proof.
  unfold outcome. destruct (zero_prior_sigma self) eqn:Hz.
  - rewrite (update_posterior_raises d self Hz). reflexivity.
  - rewrite (update_posterior_returns d self Hz). reflexivity.
Qed.

Lemma zero_prior_sigma_priors (self self' : BayesianNormalEstimator) :
  priors self' = priors self -> zero_prior_sigma self' = zero_prior_sigma self.
Proof.
  unfold priors, zero_prior_sigma. intros H. injection H as _ Hs _ _. rewrite Hs. reflexivity.
Qed.

(** When it goes through, the update is a function of the priors and
    of the data. *)
Lemma update_posterior_from_priors (d : ndarray) (self self' : BayesianNormalEstimator) :
  priors self' = priors self ->
  zero_prior_sigma self = false ->
  update_posterior d self' = update_posterior d self.
Proof.
  intros Hp Hz.
  rewrite (update_posterior_returns d self Hz).
  rewrite (update_posterior_returns d self')
    by (rewrite (zero_prior_sigma_priors _ _ Hp); exact Hz).
  unfold priors in Hp. injection Hp as Hmu Hsg Ha Hb.
  unfold new_mu, new_sigma, new_alpha, new_beta, prior_precision.
  rewrite Hmu, Hsg, Ha, Hb. reflexivity.
Qed.

(** ** The update is not incremental *)

Lemma fresh_priors (self : BayesianNormalEstimator) : priors (fresh self) = priors self.
Proof. reflexivity. Qed.

(** C8: the posterior that [update] leaves is a function of the priors
    and of the data, never of the previous posterior: two updates in a
    row on one estimator leave what the second alone leaves on a fresh
    estimator with the same priors. *)
Theorem update_posterior_non_incremental :
  (forall (mu sg a b : num) (d1 d2 : ndarray),
     update_posterior d2 (state_after (update_posterior d1) (__init__ mu sg a b)) =
     update_posterior d2 (__init__ mu sg a b)) /\
  (forall (self : BayesianNormalEstimator) (d : ndarray),
     outcome (update_posterior d) self = outcome (update_posterior d) (fresh self) /\
     (outcome (update_posterior d) self = inr tt ->
      state_after (update_posterior d) self =
      state_after (update_posterior d) (fresh self))).
Proof.
  split.
  - intros mu sg a b d1 d2.
    destruct (zero_prior_sigma (__init__ mu sg a b)) eqn:Hz.
    + unfold state_after at 1. rewrite (update_posterior_raises d1 _ Hz).
      rewrite !update_posterior_raises by exact Hz. reflexivity.
    + apply update_posterior_from_priors; [apply update_posterior_priors | exact Hz].
  - intros self d. split.
    + rewrite !update_posterior_outcome. reflexivity.
    + rewrite update_posterior_outcome. intros H.
      assert (Hz : zero_prior_sigma self = false)
        by (destruct (zero_prior_sigma self); [discriminate | reflexivity]).
      unfold state_after. f_equal. symmetry.
      apply update_posterior_from_priors; [apply fresh_priors | exact Hz].
Qed.

Lemma update_posterior_non_incremental_witness :
  outcome (update_posterior [Fin 1; Fin 2])
    (mkEstimator (PyFloat (Fin 0)) (PyFloat (Fin 2)) (PyFloat (Fin 1)) (PyFloat (Fin 1))
                 (PyFloat (Fin 7)) (PyFloat (Fin 8)) (PyFloat (Fin 9)) (PyFloat (Fin 10))
                 [Fin 4])
  = inr tt /\
  state_after (update_posterior [Fin 1; Fin 2])
    (mkEstimator (PyFloat (Fin 0)) (PyFloat (Fin 2)) (PyFloat (Fin 1)) (PyFloat (Fin 1))
                 (PyFloat (Fin 7)) (PyFloat (Fin 8)) (PyFloat (Fin 9)) (PyFloat (Fin 10))
                 [Fin 4])
  = state_after (update_posterior [Fin 1; Fin 2])
      (__init__ (PyFloat (Fin 0)) (PyFloat (Fin 2)) (PyFloat (Fin 1)) (PyFloat (Fin 1))).
Proof.
  assert (H : outcome (update_posterior [Fin 1; Fin 2])
                (mkEstimator (PyFloat (Fin 0)) (PyFloat (Fin 2)) (PyFloat (Fin 1))
                   (PyFloat (Fin 1)) (PyFloat (Fin 7)) (PyFloat (Fin 8))
                   (PyFloat (Fin 9)) (PyFloat (Fin 10)) [Fin 4]) = inr tt).
  { rewrite update_posterior_outcome. unfold zero_prior_sigma.
    cbn [prior_sigma xmul xis_zero]. rewrite Reqb_false by lra. reflexivity. }
  split; [exact H |].
  exact (proj2 (proj2 update_posterior_non_incremental _ _) H).
Defined.

(** ** Frame: what each operation leaves alone *)

Lemma sample_posterior_state (rng : Type)
  (gamma normal : xreal -> xreal -> Z -> rng -> E (ndarray * rng))
  (n_samples : Z) (g : rng) (self : BayesianNormalEstimator) :
  state_after (sample_posterior rng gamma normal n_samples g) self = self.
Proof.
  unfold state_after, sample_posterior. cbn [bind Monad_M get_self eval ret].
  destruct (truediv (py_int 1) (posterior_beta self)) as [e | scale]; [reflexivity |].
  destruct (gamma _ _ n_samples g) as [e | r1]; [reflexivity |].
  destruct (normal _ _ n_samples (snd r1)) as [e | r2]; reflexivity.
Qed.

Lemma posterior_predictive_state
  (t_pdf : xreal -> xreal -> xreal -> xreal -> xreal)
  (x_new : ndarray) (self : BayesianNormalEstimator) :
  state_after (posterior_predictive t_pdf x_new) self = self.
Proof.
  unfold state_after, posterior_predictive. cbn [bind Monad_M get_self eval ret].
  destruct (truediv _ (posterior_alpha self)) as [e | q]; reflexivity.
Qed.

(** C9: the four prior fields are set by the constructor and no
    operation writes them: [update], [sample_posterior] and
    [posterior_predictive] leave them as they are, and the last two
    leave the whole estimator (posterior fields and recorded data
    included) as it is. *)
Theorem priors_are_never_modified :
  (forall mu sg a b : num, priors (__init__ mu sg a b) = (mu, sg, a, b)) /\
  (forall (d : ndarray) (self : BayesianNormalEstimator),
     priors (state_after (update_posterior d) self) = priors self) /\
  (forall (rng : Type)
          (gamma normal : xreal -> xreal -> Z -> rng -> E (ndarray * rng))
          (n_samples : Z) (g : rng) (self : BayesianNormalEstimator),
     state_after (sample_posterior rng gamma normal n_samples g) self = self) /\
  (forall (t_pdf : xreal -> xreal -> xreal -> xreal -> xreal)
          (x_new : ndarray) (self : BayesianNormalEstimator),
     state_after (posterior_predictive t_pdf x_new) self = self).
Proof.
  split; [reflexivity |]. split; [exact update_posterior_priors |].
  split; [exact sample_posterior_state | exact posterior_predictive_state].
Qed.

(** ** Samples of reals *)

Lemma len_map_Fin (l : list R) : len (map Fin l) = Z.of_nat (length l).
Proof. unfold len. rewrite length_map. reflexivity. Qed.

Lemma IZR_len_map_Fin (l : list R) : IZR (len (map Fin l)) = INR (length l).
Proof. rewrite len_map_Fin. symmetry. apply INR_IZR_INZ. Qed.

Lemma fold_left_xadd_Fin (l : list R) (a : R) :
  fold_left xadd (map Fin l) (Fin a) = Fin (fold_left Rplus l a).
Proof.
  revert a. induction l as [| x l IH]; intros a; [reflexivity |].
  cbn [map fold_left xadd]. apply IH.
Qed.

Lemma np_sum_Fin (l : list R) : value (np_sum (map Fin l)) = Fin (Rsum l).
Proof. unfold np_sum, Rsum. cbn [value]. apply fold_left_xadd_Fin. Qed.

Lemma INR_length_pos (l : list R) : (0 < length l)%nat -> 0 < INR (length l).
Proof. intros H. apply lt_0_INR. exact H. Qed.

Lemma np_mean_Fin (l : list R) :
  (0 < length l)%nat -> value (np_mean (map Fin l)) = Fin (mean_R l).
Proof.
  intros H. unfold np_mean, mean_R. cbn [value].
  rewrite np_sum_Fin, IZR_len_map_Fin, xdiv_fin; [reflexivity |].
  pose proof (INR_length_pos l H). lra.
Qed.

Lemma arr_sq_dev_Fin (l : list R) (m : num) (r : R) :
  value m = Fin r ->
  arr_pow2 (arr_sub (map Fin l) m) = map Fin (map (fun x => (x - r) * (x - r)) l).
Proof.
  intros Hm. unfold arr_pow2, arr_sub. rewrite !map_map, Hm.
  apply map_ext. intros x. reflexivity.
Qed.

Lemma sum_sq_dev_Fin (l : list R) :
  (0 < length l)%nat -> value (sum_sq_dev (map Fin l)) = Fin (sq_dev_R l).
Proof.
  intros H. unfold sum_sq_dev, sq_dev_R.
  rewrite (arr_sq_dev_Fin l _ _ (np_mean_Fin l H)). apply np_sum_Fin.
Qed.

Lemma sample_var_Fin (l : list R) :
  (1 < length l)%nat -> value (sample_var (map Fin l)) = Fin (variance_R l).
Proof.
  intros H. unfold sample_var.
  replace (1 <? len (map Fin l))%Z with true
    by (symmetry; apply Z.ltb_lt; rewrite len_map_Fin; lia).
  unfold np_var. fold (sum_sq_dev (map Fin l)). cbn [value].
  rewrite sum_sq_dev_Fin by lia.
  replace (IZR (Z.max (len (map Fin l) - 1) 0)) with (INR (length l) - 1).
  - unfold variance_R. apply xdiv_fin.
    pose proof (lt_INR _ _ H) as H1. simpl in H1. lra.
  - rewrite len_map_Fin, Z.max_l by lia. rewrite minus_IZR, <- INR_IZR_INZ. reflexivity.
Qed.

Lemma informative_Fin (l : list R) :
  (1 < length l)%nat -> informative (map Fin l) = Rltb 0 (variance_R l).
Proof.
  intros H. unfold informative, gt. rewrite (sample_var_Fin l H). reflexivity.
Qed.

Lemma fold_left_Rplus_nonneg (l : list R) (a : R) :
  Forall (fun x => 0 <= x) l -> 0 <= a -> 0 <= fold_left Rplus l a.
Proof.
  revert a. induction l as [| x l IH]; intros a Hl Ha; [exact Ha |].
  inversion Hl; subst. cbn [fold_left]. apply IH; [assumption | lra].
Qed.

Lemma sq_dev_R_nonneg (l : list R) : 0 <= sq_dev_R l.
Proof.
  unfold sq_dev_R, Rsum. apply fold_left_Rplus_nonneg; [| lra].
  apply Forall_forall. intros y Hy. apply in_map_iff in Hy.
  destruct Hy as (x & <- & _). apply (Rle_0_sqr (x - mean_R l)).
Qed.

(** ** Precisions and scales on the reals *)

Lemma Rinv_sqrt_inv_square (s : R) : 0 < s -> 1 / sqrt (1 / (s * s)) = s.
Proof.
  intros Hs. unfold Rdiv. rewrite !Rmult_1_l, sqrt_inv, sqrt_square by lra.
  apply Rinv_inv.
Qed.

Lemma finite_prior_precision (self : BayesianNormalEstimator) (s : R) :
  value (prior_sigma self) = Fin s -> s <> 0 ->
  zero_prior_sigma self = false /\ prior_precision self = Fin (1 / (s * s)).
Proof.
  intros Hs Hnz. assert (s * s <> 0) by nra. split.
  - unfold zero_prior_sigma. destruct (prior_sigma self) as [x | x]; [| reflexivity].
    cbn [value] in Hs. subst x. cbn [xmul xis_zero]. apply Reqb_false. assumption.
  - unfold prior_precision. rewrite Hs. cbn [xmul]. apply xdiv_fin. assumption.
Qed.

(** The posterior precision and scale of an informative sample of
    reals. *)
Lemma new_precision_Fin (l : list R) (p0 : R) :
  (1 < length l)%nat -> 0 < variance_R l ->
  new_precision (Fin p0) (map Fin l) = Fin (p0 + INR (length l) / variance_R l).
Proof.
  intros Hn Hv. unfold new_precision.
  rewrite (informative_Fin l Hn), (Rltb_true _ _ Hv).
  rewrite (sample_var_Fin l Hn), IZR_len_map_Fin, xdiv_fin by lra. reflexivity.
Qed.

Lemma informative_scale_lt (s P : R) :
  0 < s -> 1 / (s * s) < P -> 1 / sqrt P < s.
Proof.
  intros Hs HP.
  assert (H0 : 0 < 1 / (s * s)) by (apply Rdiv_lt_0_compat; nra).
  assert (Hq : sqrt (1 / (s * s)) < sqrt P) by (apply sqrt_lt_1_alt; lra).
  assert (Hi : sqrt (1 / (s * s)) = / s).
  { unfold Rdiv. rewrite Rmult_1_l, sqrt_inv, sqrt_square by lra. reflexivity. }
  rewrite Hi in Hq.
  assert (Hsi : 0 < / s) by (apply Rinv_0_lt_compat; exact Hs).
  unfold Rdiv. rewrite Rmult_1_l. rewrite <- (Rinv_inv s).
  apply Rinv_lt_contravar; [| exact Hq].
  apply Rmult_lt_0_compat; lra.
Qed.

(** ** Sampling from the posterior *)

Lemma len_arr_inv_sqrt (a : ndarray) : len (arr_inv_sqrt a) = len a.
Proof. unfold len, arr_inv_sqrt. rewrite length_map. reflexivity. Qed.

Lemma posterior_scale_raises (self : BayesianNormalEstimator) :
  zero_posterior_beta self = true ->
  truediv (py_int 1) (posterior_beta self) = inl ZeroDivisionError.
Proof.
  unfold zero_posterior_beta. destruct (posterior_beta self) as [x | x]; [| discriminate].
  intros H. unfold py_int. rewrite truediv_py, H. reflexivity.
Qed.

Lemma posterior_scale_returns (self : BayesianNormalEstimator) :
  zero_posterior_beta self = false ->
  exists scale, truediv (py_int 1) (posterior_beta self) = inr scale
                /\ value scale = xdiv (Fin 1) (value (posterior_beta self)).
Proof.
  unfold zero_posterior_beta. destruct (posterior_beta self) as [x | x]; intros H.
  - exists (PyFloat (xdiv (Fin 1) x)). unfold py_int. rewrite truediv_py, H. split; reflexivity.
  - exists (NpFloat64 (xdiv (Fin 1) x)). split; reflexivity.
Qed.

(** Whatever the samplers, a zero Python float as posterior rate makes
    [sample_posterior] raise before anything is drawn. *)
Lemma sample_posterior_zero_rate (rng : Type)
  (gamma normal : xreal -> xreal -> Z -> rng -> E (ndarray * rng))
  (n_samples : Z) (g : rng) (self : BayesianNormalEstimator) :
  zero_posterior_beta self = true ->
  outcome (sample_posterior rng gamma normal n_samples g) self = inl ZeroDivisionError.
Proof.
  intros H. unfold outcome, sample_posterior. cbn [bind Monad_M get_self eval].
  rewrite (posterior_scale_raises self H). reflexivity.
Qed.

Section SamplerContract.

Variable rng : Type.
Variables np_random_gamma np_random_normal
  : xreal -> xreal -> Z -> rng -> E (ndarray * rng).
(* the parameters each sampler accepts *)
Variables accepts_gamma accepts_normal : xreal -> xreal -> bool.

(** numpy's contract: a negative size or refused parameters raise
    [ValueError]; otherwise the sampler returns [size] draws. *)
Hypothesis gamma_rejects : forall a s n g,
  (n < 0)%Z \/ accepts_gamma a s = false -> np_random_gamma a s n g = inl ValueError.
Hypothesis gamma_draws : forall a s n g,
  (0 <= n)%Z -> accepts_gamma a s = true ->
  exists l g', np_random_gamma a s n g = inr (l, g') /\ len l = n.
Hypothesis normal_draws : forall a s n g,
  (0 <= n)%Z -> accepts_normal a s = true ->
  exists l g', np_random_normal a s n g = inr (l, g') /\ len l = n.

(** C7, as amended: with numpy's samplers raising [ValueError] on a
    negative size and returning [size] draws for a size >= 0 and
    parameters they accept, [sample_posterior(n_samples)] raises
    [ZeroDivisionError] when [posterior_rate] is a zero Python float;
    otherwise it raises [ValueError] for [n_samples < 0], and for
    [n_samples >= 0] and accepted parameters it returns two sequences
    of length [n_samples] (empty at 0) and leaves the estimator as it
    is. *)
Theorem sample_posterior_lengths
  (n_samples : Z) (g : rng) (self : BayesianNormalEstimator) :
  (zero_posterior_beta self = true ->
   outcome (sample_posterior rng np_random_gamma np_random_normal n_samples g) self
   = inl ZeroDivisionError) /\
  (zero_posterior_beta self = false -> (n_samples < 0)%Z ->
   outcome (sample_posterior rng np_random_gamma np_random_normal n_samples g) self
   = inl ValueError) /\
  (zero_posterior_beta self = false -> (0 <= n_samples)%Z ->
   accepts_gamma (value (posterior_alpha self))
                 (xdiv (Fin 1) (value (posterior_beta self))) = true ->
   accepts_normal (value (posterior_mu self)) (value (posterior_sigma self)) = true ->
   exists mu_samples sigma_samples g',
     sample_posterior rng np_random_gamma np_random_normal n_samples g self
     = (self, inr (mu_samples, sigma_samples, g')) /\
     len mu_samples = n_samples /\ len sigma_samples = n_samples).
Proof.
  split; [apply sample_posterior_zero_rate |]. split.
  - intros Hz Hn. unfold outcome, sample_posterior. cbn [bind Monad_M get_self eval].
    destruct (posterior_scale_returns self Hz) as (scale & Hsc & _). rewrite Hsc.
    rewrite gamma_rejects by (left; exact Hn). reflexivity.
  - intros Hz Hn Hg Hnorm. unfold sample_posterior. cbn [bind Monad_M get_self eval].
    destruct (posterior_scale_returns self Hz) as (scale & Hsc & Hv). rewrite Hsc, Hv.
    destruct (gamma_draws _ _ n_samples g Hn Hg) as (l1 & g1 & Hd1 & Hl1).
    rewrite Hd1. cbn [fst snd].
    destruct (normal_draws _ _ n_samples g1 Hn Hnorm) as (l2 & g2 & Hd2 & Hl2).
    rewrite Hd2. cbn [fst snd ret].
    exists l2, (arr_inv_sqrt l1), g2. split; [reflexivity |].
    split; [exact Hl2 | rewrite len_arr_inv_sqrt; exact Hl1].
Qed.

End SamplerContract.

Lemma constant_sampler_rejects (accepts : xreal -> xreal -> bool)
  (a s : xreal) (n : Z) (g : unit) :
  (n < 0)%Z \/ accepts a s = false -> constant_sampler accepts a s n g = inl ValueError.
Proof.
  intros [H | H]; unfold constant_sampler.
  - replace (n <? 0)%Z with true by (symmetry; apply Z.ltb_lt; exact H). reflexivity.
  - rewrite H. rewrite orb_true_r. reflexivity.
Qed.

Lemma constant_sampler_draws (accepts : xreal -> xreal -> bool)
  (a s : xreal) (n : Z) (g : unit) :
  (0 <= n)%Z -> accepts a s = true ->
  exists l g', constant_sampler accepts a s n g = inr (l, g') /\ len l = n.
Proof.
  intros Hn Ha. exists (repeat a (Z.to_nat n)), g. unfold constant_sampler.
  replace (n <? 0)%Z with false by (symmetry; apply Z.ltb_ge; exact Hn).
  rewrite Ha. split; [reflexivity |].
  unfold len. rewrite repeat_length. apply Z2Nat.id, Hn.
Qed.

Lemma nonnegative_Fin (r : R) : 0 <= r -> nonnegative (Fin r) = true.
Proof. intros H. unfold nonnegative. cbn [xgt]. rewrite Rltb_false by lra. reflexivity. Qed.

Lemma sample_posterior_lengths_witness :
  exists mu_samples sigma_samples g',
    sample_posterior unit (constant_sampler gamma_accepts)
      (constant_sampler normal_accepts) 3 tt
      (__init__ (PyFloat (Fin 0)) (PyFloat (Fin 2)) (PyFloat (Fin 1)) (PyFloat (Fin 1)))
    = (__init__ (PyFloat (Fin 0)) (PyFloat (Fin 2)) (PyFloat (Fin 1)) (PyFloat (Fin 1)),
       inr (mu_samples, sigma_samples, g')) /\
    len mu_samples = 3%Z /\ len sigma_samples = 3%Z.
Proof.
  refine (proj2 (proj2 (sample_posterior_lengths unit
            (constant_sampler gamma_accepts) (constant_sampler normal_accepts)
            gamma_accepts normal_accepts
            (constant_sampler_rejects gamma_accepts)
            (constant_sampler_draws gamma_accepts)
            (constant_sampler_draws normal_accepts)
            3%Z tt
            (__init__ (PyFloat (Fin 0)) (PyFloat (Fin 2))
                      (PyFloat (Fin 1)) (PyFloat (Fin 1)))))
          _ _ _ _).
  - unfold zero_posterior_beta. cbn [posterior_beta __init__ xis_zero].
    apply Reqb_false. lra.
  - lia.
  - cbn [posterior_alpha posterior_beta __init__ value]. unfold gamma_accepts.
    rewrite xdiv_fin by lra. rewrite !nonnegative_Fin by lra. reflexivity.
  - cbn [posterior_mu posterior_sigma __init__ value]. unfold normal_accepts.
    apply nonnegative_Fin. lra.
Defined.

(** C7 as stated fails: on a fresh estimator with [prior_rate = 0.0]
    the scale [1/self.posterior_beta] raises [ZeroDivisionError], for a
    positive [n_samples]. *)
Lemma sample_posterior_zero_rate_raises :
  outcome (sample_posterior unit (constant_sampler gamma_accepts)
             (constant_sampler normal_accepts) 1000 tt)
    (__init__ (PyFloat (Fin 0)) (PyFloat (Fin 1)) (PyFloat (Fin 1)) (PyFloat (Fin 0)))
  = inl ZeroDivisionError.
Proof.
  apply sample_posterior_zero_rate.
  unfold zero_posterior_beta. cbn [posterior_beta __init__ xis_zero].
  apply Reqb_true. reflexivity.
Qed.

(** ** The posterior predictive density *)

Lemma truediv_Fin (p q : num) (x y : R) :
  value p = Fin x -> value q = Fin y -> y <> 0 ->
  exists r, truediv p q = inr r /\ value r = Fin (x / y).
Proof.
  intros Hp Hq Hy. destruct p as [u | u], q as [v | v]; cbn [value] in Hp, Hq; subst u v.
  - exists (PyFloat (Fin (x / y))). rewrite truediv_py. cbn [xis_zero].
    rewrite Reqb_false by exact Hy. rewrite xdiv_fin by exact Hy. split; reflexivity.
  - exists (NpFloat64 (Fin (x / y))). rewrite truediv_np_r. cbn [value].
    rewrite xdiv_fin by exact Hy. split; reflexivity.
  - exists (NpFloat64 (Fin (x / y))). rewrite truediv_np_l. cbn [value].
    rewrite xdiv_fin by exact Hy. split; reflexivity.
  - exists (NpFloat64 (Fin (x / y))). rewrite truediv_np_l. cbn [value].
    rewrite xdiv_fin by exact Hy. split; reflexivity.
Qed.

Section PredictiveDensity.

(* the normalising constant of the Student-t density *)
Variable c : R -> R.
Variable stats_t_pdf : xreal -> xreal -> xreal -> xreal -> xreal.

Hypothesis c_pos : forall df : R, 0 < df -> 0 < c df.

(** scipy's contract: at finite arguments with positive degrees of
    freedom and scale, [stats.t.pdf] is the Student-t density. *)
Hypothesis stats_t_pdf_spec : forall x df loc scale : R,
  0 < df -> 0 < scale ->
  stats_t_pdf (Fin x) (Fin df) (Fin loc) (Fin scale)
  = Fin (student_t_pdf c df loc scale x).



End PredictiveDensity.




(** * Further properties of the module *)

(** ** What an update writes *)



(** X2: the last update wins, on every estimator: an update after
    another leaves the state and the outcome of the second alone; in
    particular an update is idempotent. *)
Theorem last_update_wins (d1 d2 : ndarray) (self : BayesianNormalEstimator) :
  update_posterior d2 (state_after (update_posterior d1) self)
  = update_posterior d2 self.
Proof.
  destruct (zero_prior_sigma self) eqn:Hz.
  - unfold state_after at 1. rewrite (update_posterior_raises d1 self Hz).
    rewrite (update_posterior_raises d2 self Hz).
    rewrite update_posterior_raises by exact Hz. reflexivity.
  - apply update_posterior_from_priors; [apply update_posterior_priors | exact Hz].
Qed.

(** ** Valid priors give a valid posterior *)

Lemma informative_inv (l : list R) :
  informative (map Fin l) = true -> (1 < length l)%nat /\ 0 < variance_R l.
Proof.
  intros H. destruct (informative_np_var _ H) as [Hn _].
  apply Z.ltb_lt in Hn. rewrite len_map_Fin in Hn.
  assert (Hl : (1 < length l)%nat) by lia. split; [exact Hl |].
  rewrite (informative_Fin l Hl) in H. destruct (Rltb_spec 0 (variance_R l)); [assumption | discriminate].
Qed.

(** The posterior precision of a sample of reals is a real, at least
    the prior precision. *)
Lemma new_precision_real (l : list R) (p0 : R) :
  exists P : R, new_precision (Fin p0) (map Fin l) = Fin P /\ p0 <= P.
Proof.
  destruct (informative (map Fin l)) eqn:Hi.
  - destruct (informative_inv l Hi) as [Hn Hv].
    exists (p0 + INR (length l) / variance_R l). split.
    + apply new_precision_Fin; assumption.
    + assert (0 < INR (length l)) by (apply INR_length_pos; lia).
      assert (0 < INR (length l) / variance_R l) by (apply Rdiv_lt_0_compat; assumption).
      lra.
  - exists p0. unfold new_precision. rewrite Hi. split; [reflexivity | lra].
Qed.

Lemma scale_of_precision (s P : R) :
  0 < s -> 1 / (s * s) <= P -> 0 < 1 / sqrt P <= s.
Proof.
  intros Hs HP.
  assert (H0 : 0 < 1 / (s * s)) by (apply Rdiv_lt_0_compat; nra).
  assert (0 < sqrt P) by (apply sqrt_lt_R0; lra).
  split; [apply Rdiv_lt_0_compat; lra |].
  destruct HP as [HP | HP].
  - left. apply informative_scale_lt; assumption.
  - right. rewrite <- HP. apply Rinv_sqrt_inv_square, Hs.
Qed.

Lemma new_mu_real (l : list R) (self : BayesianNormalEstimator) (p0 m : R) :
  0 < p0 -> value (prior_mu self) = Fin m ->
  exists m' : R, value (new_mu (Fin p0) self (map Fin l)) = Fin m'.
Proof.
  intros Hp Hm. unfold new_mu. destruct (informative (map Fin l)) eqn:Hi.
  - destruct (informative_inv l Hi) as [Hn Hv].
    rewrite (new_precision_Fin l p0 Hn Hv), (sample_var_Fin l Hn).
    rewrite (np_mean_Fin l) by lia. rewrite IZR_len_map_Fin, Hm.
    cbn [value xmul]. rewrite xdiv_fin by lra. cbn [xadd].
    assert (0 < INR (length l)) by (apply INR_length_pos; lia).
    assert (0 < INR (length l) / variance_R l) by (apply Rdiv_lt_0_compat; assumption).
    rewrite xdiv_fin by lra. eexists. reflexivity.
  - exists m. exact Hm.
Qed.

Lemma new_beta_real (l : list R) (self : BayesianNormalEstimator) (p0 m b : R) :
  0 < p0 -> value (prior_mu self) = Fin m -> value (prior_beta self) = Fin b ->
  exists b' : R, value (new_beta (Fin p0) self (map Fin l)) = Fin b' /\ b <= b'.
Proof.
  intros Hp Hm Hb. unfold new_beta.
  destruct (1 <? len (map Fin l))%Z eqn:Hn.
  - apply Z.ltb_lt in Hn. rewrite len_map_Fin in Hn.
    destruct (new_precision_real l p0) as (P & HP & HPle). rewrite HP.
    rewrite (sum_sq_dev_Fin l), (np_mean_Fin l) by lia.
    rewrite IZR_len_map_Fin, Hm, Hb. cbn [value xmul xsub xneg xadd].
    rewrite !xdiv_fin by lra. cbn [xadd]. eexists. split; [reflexivity |].
    pose proof (sq_dev_R_nonneg l) as Hss.
    assert (Hlen : 0 < INR (length l)) by (apply INR_length_pos; lia).
    pose proof (Rle_0_sqr (mean_R l + - m)) as Hsq. unfold Rsqr in Hsq.
    assert (0 <= p0 * INR (length l) * ((mean_R l + - m) * (mean_R l + - m)) / (2 * P)).
    { apply Rmult_le_pos.
      - apply Rmult_le_pos; [| exact Hsq]. apply Rmult_le_pos; lra.
      - apply Rlt_le, Rinv_0_lt_compat. lra. }
    lra.
  - exists b. split; [exact Hb | lra].
Qed.

(** The posterior that an update leaves from positive real priors. *)
Lemma update_posterior_valid (l : list R) (self : BayesianNormalEstimator) (m s a b : R) :
  value (prior_mu self) = Fin m ->
  value (prior_sigma self) = Fin s -> 0 < s ->
  value (prior_alpha self) = Fin a -> 0 < a ->
  value (prior_beta self) = Fin b -> 0 < b ->
  outcome (update_posterior (map Fin l)) self = inr tt /\
  exists m' s' a' b' : R,
    value (posterior_mu (state_after (update_posterior (map Fin l)) self)) = Fin m' /\
    value (posterior_sigma (state_after (update_posterior (map Fin l)) self)) = Fin s' /\
    value (posterior_alpha (state_after (update_posterior (map Fin l)) self)) = Fin a' /\
    value (posterior_beta (state_after (update_posterior (map Fin l)) self)) = Fin b' /\
    0 < s' <= s /\ a' = a + INR (length l) / 2 /\ a <= a' /\ b <= b'.
Proof.
  intros Hm Hs Hspos Ha Hapos Hb Hbpos.
  assert (Hnz : s <> 0) by lra.
  destruct (finite_prior_precision self s Hs Hnz) as [Hz Hp].
  assert (Hp0 : 0 < 1 / (s * s)) by (apply Rdiv_lt_0_compat; nra).
  unfold outcome, state_after. rewrite (update_posterior_returns _ self Hz), Hp.
  cbn [fst snd posterior_mu posterior_sigma posterior_alpha posterior_beta].
  split; [reflexivity |].
  destruct (new_mu_real l self _ m Hp0 Hm) as (m' & Hm').
  destruct (new_precision_real l (1 / (s * s))) as (P & HP & HPle).
  destruct (new_beta_real l self _ m b Hp0 Hm Hb) as (b' & Hb' & Hble).
  exists m', (1 / sqrt P), (a + INR (length l) / 2), b'.
  assert (0 < sqrt P) by (apply sqrt_lt_R0; lra).
  assert (0 <= INR (length l)) by apply pos_INR.
  repeat split; try assumption.
  - unfold new_sigma. rewrite HP. cbn [value]. rewrite xsqrt_fin by lra.
    apply xdiv_fin. lra.
  - unfold new_alpha. rewrite value_add, Ha, IZR_len_map_Fin. reflexivity.
  - apply (scale_of_precision s P Hspos HPle).
  - apply (scale_of_precision s P Hspos HPle).
  - lra.
Qed.

(** ** When the predictive density raises *)

(** What one call of [posterior_predictive] does: it leaves the
    estimator as it is, and either the division producing the scale
    raises or every query point gets its density. *)
Lemma posterior_predictive_run
  (t_pdf : xreal -> xreal -> xreal -> xreal -> xreal)
  (x_new : ndarray) (self : BayesianNormalEstimator) :
  posterior_predictive t_pdf x_new self =
  (self,
   if zero_posterior_alpha self then inl ZeroDivisionError
   else inr (map (fun x =>
                    t_pdf x (xmul (Fin 2) (value (posterior_alpha self)))
                          (value (posterior_mu self))
                          (xsqrt (xdiv (xmul (value (posterior_beta self)) (Fin 2))
                                       (value (posterior_alpha self)))))
                 x_new)).
Proof.
  unfold posterior_predictive, zero_posterior_alpha.
  cbn [bind Monad_M get_self eval ret].
  destruct (posterior_beta self) as [b | b], (posterior_alpha self) as [a | a];
    cbn [mul add join py_int value xadd truediv np_sqrt];
    try reflexivity.
  destruct (xis_zero a); reflexivity.
Qed.

Lemma update_posterior_rate_is_numpy (d : ndarray) (self : BayesianNormalEstimator) :
  zero_prior_sigma self = false -> (1 < len d)%Z ->
  exists x, posterior_beta (state_after (update_posterior d) self) = NpFloat64 x.
Proof.
  intros Hz Hn. unfold state_after. rewrite (update_posterior_returns d self Hz).
  cbn [fst posterior_beta]. unfold new_beta.
  replace (1 <? len d)%Z with true by (symmetry; apply Z.ltb_lt; exact Hn).
  eexists. reflexivity.
Qed.

(** X6: [posterior_predictive] raises exactly when [posterior_shape] is
    a zero Python float and [posterior_rate] a Python float, and then it
    is [ZeroDivisionError]; otherwise every query point gets a density,
    whatever the other fields are.  On a fresh estimator with
    [prior_alpha = 0.0] it raises. *)
Theorem posterior_predictive_raises_only_at_zero_shape :
  (forall (t_pdf : xreal -> xreal -> xreal -> xreal -> xreal)
          (x_new : ndarray) (self : BayesianNormalEstimator),
     if zero_posterior_alpha self
     then outcome (posterior_predictive t_pdf x_new) self = inl ZeroDivisionError
     else exists ys, outcome (posterior_predictive t_pdf x_new) self = inr ys
                     /\ length ys = length x_new) /\
  (forall (t_pdf : xreal -> xreal -> xreal -> xreal -> xreal)
          (x_new : ndarray) (mu sg : num) (b : xreal),
     outcome (posterior_predictive t_pdf x_new)
       (__init__ mu sg (PyFloat (Fin 0)) (PyFloat b))
     = inl ZeroDivisionError).
Proof.
  split.
  - intros t_pdf x_new self. unfold outcome. rewrite posterior_predictive_run.
    cbn [snd]. destruct (zero_posterior_alpha self); [reflexivity |].
    eexists. split; [reflexivity |]. apply length_map.
  - intros t_pdf x_new mu sg b. unfold outcome. rewrite posterior_predictive_run.
    cbn [snd]. unfold zero_posterior_alpha. cbn [posterior_beta posterior_alpha __init__ xis_zero].
    rewrite Reqb_true by reflexivity. reflexivity.
Qed.

(** X7: after an update with at least two points that returned,
    [posterior_rate] is a numpy [float64]: whatever the priors (a zero
    shape or rate included), [posterior_predictive] then returns a
    density for every query point and the scale [1/posterior_rate] of
    [sample_posterior] cannot raise. *)
Theorem no_zero_division_after_update
  (t_pdf : xreal -> xreal -> xreal -> xreal -> xreal)
  (x_new d : ndarray) (self : BayesianNormalEstimator) :
  outcome (update_posterior d) self = inr tt -> (1 < len d)%Z ->
  (exists ys,
     outcome (posterior_predictive t_pdf x_new)
       (state_after (update_posterior d) self) = inr ys
     /\ length ys = length x_new) /\
  exists scale,
    truediv (py_int 1) (posterior_beta (state_after (update_posterior d) self))
    = inr scale.
Proof.
  intros Hr Hn.
  assert (Hz : zero_prior_sigma self = false).
  { rewrite update_posterior_outcome in Hr.
    destruct (zero_prior_sigma self); [discriminate | reflexivity]. }
  destruct (update_posterior_rate_is_numpy d self Hz Hn) as (x & Hx). split.
  - unfold outcome. rewrite posterior_predictive_run. cbn [snd].
    unfold zero_posterior_alpha. rewrite Hx.
    eexists. split; [reflexivity |]. apply length_map.
  - rewrite Hx. eexists. apply truediv_np_r.
Qed.

Lemma no_zero_division_after_update_witness :
  exists ys,
    outcome (posterior_predictive (t_pdf_with cauchy_constant) [Fin 0; Fin 1])
      (state_after (update_posterior [Fin 3; Fin 3])
         (__init__ (PyFloat (Fin 3)) (PyFloat (Fin 2)) (PyFloat (Fin (-1))) (PyFloat (Fin 0))))
    = inr ys
    /\ length ys = length [Fin 0; Fin 1].
Proof.
  refine (proj1 (no_zero_division_after_update (t_pdf_with cauchy_constant)
            [Fin 0; Fin 1] [Fin 3; Fin 3]
            (__init__ (PyFloat (Fin 3)) (PyFloat (Fin 2))
                      (PyFloat (Fin (-1))) (PyFloat (Fin 0)))
            _ _)).
  - rewrite update_posterior_outcome, zero_prior_sigma_init. cbn [xmul xis_zero].
    rewrite Reqb_false by lra. reflexivity.
  - unfold len. simpl. lia.
Defined.

(** ** An estimation session: update, then sample and predict *)

Section ValidSession.

Variable rng : Type.
Variable np_random_seed : Z -> rng.
Variables np_random_gamma np_random_normal
  : xreal -> xreal -> Z -> rng -> E (ndarray * rng).

(** numpy's contract at valid parameters: for a size >= 0, a gamma law
    of positive shape and scale gives [size] draws, and a normal law of
    finite location and positive scale gives [size] real draws. *)
Hypothesis gamma_draws_at_positive : forall (a s : R) (n : Z) (g : rng),
  0 < a -> 0 < s -> (0 <= n)%Z ->
  exists l g', np_random_gamma (Fin a) (Fin s) n g = inr (l, g') /\ len l = n.
Hypothesis normal_draws_reals : forall (m s : R) (n : Z) (g : rng),
  0 < s -> (0 <= n)%Z ->
  exists (l : list R) g',
    np_random_normal (Fin m) (Fin s) n g = inr (map Fin l, g')
    /\ len (map Fin l) = n.

Lemma sample_posterior_at_valid_state
  (n_samples : Z) (g : rng) (self : BayesianNormalEstimator) (m s a b : R) :
  value (posterior_mu self) = Fin m ->
  value (posterior_sigma self) = Fin s -> 0 < s ->
  value (posterior_alpha self) = Fin a -> 0 < a ->
  value (posterior_beta self) = Fin b -> 0 < b ->
  (0 <= n_samples)%Z ->
  exists mu_samples sigma_samples g',
    sample_posterior rng np_random_gamma np_random_normal n_samples g self
    = (self, inr (mu_samples, sigma_samples, g')) /\
    len mu_samples = n_samples /\ len sigma_samples = n_samples.
Proof.
  intros Hm Hs Hspos Ha Hapos Hb Hbpos Hn.
  unfold sample_posterior. cbn [bind Monad_M get_self eval].
  destruct (truediv_Fin (py_int 1) (posterior_beta self) 1 b eq_refl Hb)
    as (scale & Hdiv & Hval); [lra |].
  rewrite Hdiv, Hval, Ha, Hm, Hs.
  assert (0 < 1 / b) by (apply Rdiv_lt_0_compat; lra).
  destruct (gamma_draws_at_positive a (1 / b) n_samples g) as (l1 & g1 & Hd1 & Hl1);
    try assumption.
  rewrite Hd1. cbn [fst snd].
  destruct (normal_draws_reals m s n_samples g1 Hspos Hn) as (l2 & g2 & Hd2 & Hl2).
  rewrite Hd2. cbn [fst snd ret].
  exists (map Fin l2), (arr_inv_sqrt l1), g2. split; [reflexivity |].
  split; [exact Hl2 | rewrite len_arr_inv_sqrt; exact Hl1].
Qed.

(** X14: the session of [demonstrate_bayesian_estimation] never raises:
    it draws 20 observations, updates an estimator built with priors
    (0, 2, 1, 1), which ends with [posterior_shape = 11] and the
    observations as recorded data, and returns two arrays of 5000
    posterior draws. *)
Theorem demonstration_session_succeeds :
  exists estimator observed_data mu_samples sigma_samples,
    demonstrate_bayesian_estimation rng np_random_seed np_random_gamma np_random_normal
    = inr (estimator, observed_data, (mu_samples, sigma_samples)) /\
    len observed_data = 20%Z /\
    data estimator = observed_data /\
    value (posterior_alpha estimator) = Fin 11 /\
    len mu_samples = 5000%Z /\ len sigma_samples = 5000%Z.
Proof.
  unfold demonstrate_bayesian_estimation, true_mu, true_sigma, n_data_points.
  destruct (normal_draws_reals (25 / 10) (12 / 10) 20 (np_random_seed 42))
    as (l & g & Hd & Hl); [lra | lia |].
  rewrite Hd. cbn [bind Monad_E fst snd].
  set (e0 := __init__ (PyFloat (Fin 0)) (PyFloat (Fin 2)) (PyFloat (Fin 1)) (PyFloat (Fin 1))).
  assert (H2 : 0 < 2) by lra. assert (H1 : 0 < 1) by lra.
  destruct (update_posterior_valid l e0 0 2 1 1 eq_refl eq_refl H2 eq_refl H1 eq_refl H1)
    as (Ho & m' & s' & a' & b' & Hm' & Hs' & Ha' & Hb' & Hsr & Haeq & Har & Hbr).
  destruct (sample_posterior_at_valid_state 5000 g
              (state_after (update_posterior (map Fin l)) e0) m' s' a' b')
    as (mu & sg & g' & Hsp & Hlm & Hls); try assumption; try lra; try lia.
  exists (state_after (update_posterior (map Fin l)) e0), (map Fin l), mu, sg.
  split; [| split; [exact Hl | split; [| split; [| split; assumption]]]].
  - cbn [bind Monad_M].
    unfold outcome in Ho. unfold state_after in Hsp |- *.
    destruct (update_posterior (map Fin l) e0) as [e1 o1]. cbn [fst snd] in *.
    subst o1. rewrite Hsp. reflexivity.
  - unfold state_after. destruct (zero_prior_sigma e0) eqn:Hz.
    + rewrite (update_posterior_raises _ e0 Hz). reflexivity.
    + rewrite (update_posterior_returns _ e0 Hz). reflexivity.
  - rewrite Ha', Haeq. f_equal.
    rewrite len_map_Fin in Hl.
    assert (Hlen : INR (length l) = 20).
    { rewrite INR_IZR_INZ, Hl. reflexivity. }
    rewrite Hlen. lra.
Qed.

End ValidSession.

Lemma constant_gamma_draws_at_positive (a s : R) (n : Z) (g : unit) :
  0 < a -> 0 < s -> (0 <= n)%Z ->
  exists l g', constant_sampler gamma_accepts (Fin a) (Fin s) n g = inr (l, g')
               /\ len l = n.
Proof.
  intros Ha Hs Hn. apply constant_sampler_draws; [exact Hn |].
  unfold gamma_accepts. rewrite !nonnegative_Fin by lra. reflexivity.
Qed.

Lemma constant_normal_draws_reals (m s : R) (n : Z) (g : unit) :
  0 < s -> (0 <= n)%Z ->
  exists (l : list R) g',
    constant_sampler normal_accepts (Fin m) (Fin s) n g = inr (map Fin l, g')
    /\ len (map Fin l) = n.
Proof.
  intros Hs Hn. exists (repeat m (Z.to_nat n)), g. unfold constant_sampler.
  replace (n <? 0)%Z with false by (symmetry; apply Z.ltb_ge; exact Hn).
  unfold normal_accepts. rewrite nonnegative_Fin by lra. cbn [negb orb].
  rewrite map_repeat. split; [reflexivity |].
  unfold len. rewrite repeat_length. apply Z2Nat.id, Hn.
Qed.

Lemma demonstration_session_succeeds_witness :
  exists estimator observed_data mu_samples sigma_samples,
    demonstrate_bayesian_estimation unit (fun _ => tt)
      (constant_sampler gamma_accepts) (constant_sampler normal_accepts)
    = inr (estimator, observed_data, (mu_samples, sigma_samples)) /\
    len observed_data = 20%Z /\
    data estimator = observed_data /\
    value (posterior_alpha estimator) = Fin 11 /\
    len mu_samples = 5000%Z /\ len sigma_samples = 5000%Z.
Proof.
  exact (demonstration_session_succeeds unit (fun _ => tt)
           (constant_sampler gamma_accepts) (constant_sampler normal_accepts)
           constant_gamma_draws_at_positive constant_normal_draws_reals).
Defined.

(** ** The standard deviations drawn by [sample_posterior] *)





(** ** The frequentist interval of [compare_approaches] *)

Lemma xadd_NaN_r (a : xreal) : xadd a NaN = NaN.
Proof. destruct a; reflexivity. Qed.

Lemma np_var_short (l : list R) :
  (length l <= 1)%nat -> np_var (map Fin l) 1 = NpFloat64 NaN.
Proof.
  intros H. destruct l as [| v [| w l]]; [| | simpl in H; lia].
  - unfold np_var, np_sum, arr_pow2, arr_sub, len. simpl.
    unfold xdiv. rewrite !Reqb_true by reflexivity. reflexivity.
  - unfold np_var. fold (sum_sq_dev (map Fin [v])).
    rewrite (sum_sq_dev_Fin [v]) by (simpl; lia).
    replace (sq_dev_R [v]) with 0
      by (unfold sq_dev_R, mean_R, Rsum; simpl; field).
    unfold len. simpl. unfold xdiv. rewrite !Reqb_true by reflexivity. reflexivity.
Qed.

(** X12: for a sample of at most one real, the standard deviation with
    [ddof=1] is NaN: both ends of the frequentist interval are NaN and
    the containment test is false for every [true_mu]; nothing is
    raised. *)
Theorem frequentist_interval_short (l : list R) :
  (length l <= 1)%nat ->
  mu_ci_freq (map Fin l) = inr (NpFloat64 NaN, NpFloat64 NaN) /\
  forall true_mu : num, freq_contains (map Fin l) true_mu = inr false.
Proof.
  intros H.
  assert (Hci : mu_ci_freq (map Fin l) = inr (NpFloat64 NaN, NpFloat64 NaN)).
  { unfold mu_ci_freq, mu_se, freq_sigma, np_std, np_sqrt.
    rewrite (np_var_short l H), truediv_np_l. cbn [value xsqrt xdiv bind Monad_E ret].
    unfold freq_mu. rewrite (np_mean_np (map Fin l)).
    rewrite mul_np_r. cbn [value z_95 xmul].
    rewrite sub_np_l, add_np_r. cbn [value].
    unfold xsub. cbn [xneg]. rewrite !xadd_NaN_r. reflexivity. }
  split; [exact Hci |].
  intros t. unfold freq_contains. rewrite Hci. reflexivity.
Qed.

Lemma frequentist_interval_short_witness :
  mu_ci_freq (map Fin [5]) = inr (NpFloat64 NaN, NpFloat64 NaN).
Proof.
  refine (proj1 (frequentist_interval_short [5] _)). simpl. lia.
Defined.

(** ** The predictive curves of [create_bayesian_plots] *)

Lemma py_range_ascending (stop step : Z) :
  (0 < step)%Z ->
  exists idx,
    py_range 0 stop step = inr idx /\
    Forall (fun i => (0 <= i < stop)%Z) idx /\
    Z.of_nat (length idx) = Z.max 0 ((stop + step - 1) / step).
Proof.
  intros Hs. unfold py_range.
  replace (step =? 0)%Z with false by (symmetry; apply Z.eqb_neq; lia).
  replace (0 <? step)%Z with true by (symmetry; apply Z.ltb_lt; exact Hs).
  replace (stop - 0 + step - 1)%Z with (stop + step - 1)%Z by lia.
  set (count := ((stop + step - 1) / step)%Z).
  eexists. split; [reflexivity |]. split.
  - apply Forall_forall. intros i Hi. apply in_map_iff in Hi.
    destruct Hi as (k & <- & Hk). apply in_seq in Hk.
    assert (Hc : (Z.of_nat k < count)%Z) by lia.
    pose proof (Z.mul_div_le (stop + step - 1) step Hs) as Hm. fold count in Hm.
    nia.
  - rewrite length_map, length_seq. lia.
Qed.

(** X13: the loop that draws the predictive curves steps through the
    posterior samples by [len(mu_samples) // 100].  With fewer than 100
    samples (none included) the step is 0 and [range] raises
    [ValueError]; with 100 or more, every index it visits is within the
    array, and it visits between 100 and 199 of them, exactly 100 when
    the number of samples is a multiple of 100. *)
Theorem pred_sample_indices_in_bounds (mu_samples : ndarray) :
  ((len mu_samples < 100)%Z -> pred_sample_indices mu_samples = inl ValueError) /\
  ((100 <= len mu_samples)%Z ->
   exists idx,
     pred_sample_indices mu_samples = inr idx /\
     Forall (fun i => (0 <= i < len mu_samples)%Z) idx /\
     (100 <= length idx <= 199)%nat /\
     ((len mu_samples mod 100 = 0)%Z -> length idx = 100%nat)).
Proof.
  unfold pred_sample_indices, n_pred_samples.
  assert (Hn : (0 <= len mu_samples)%Z) by (unfold len; lia).
  set (n := len mu_samples) in *. split.
  - intros Hlt. rewrite Z.div_small by lia. reflexivity.
  - intros Hge.
    assert (Hstep : (0 < n / 100)%Z) by (apply Z.div_str_pos; lia).
    destruct (py_range_ascending n (n / 100) Hstep) as (idx & Hr & Hin & Hlen).
    exists idx. split; [exact Hr |]. split; [exact Hin |].
    pose proof (Z.mul_div_le n 100 ltac:(lia)) as Hlo.
    pose proof (Z.mul_succ_div_gt n 100 ltac:(lia)) as Hhi.
    set (step := (n / 100)%Z) in *.
    assert (Hc1 : (100 <= (n + step - 1) / step)%Z)
      by (apply Z.div_le_lower_bound; lia).
    assert (Hc2 : ((n + step - 1) / step < 200)%Z)
      by (apply Z.div_lt_upper_bound; lia).
    split; [lia |].
    intros Hmod.
    assert (Hex : n = (100 * step)%Z).
    { pose proof (Z.div_mod n 100 ltac:(lia)) as Hdm. fold step in Hdm. lia. }
    assert (Hc3 : ((n + step - 1) / step = 100)%Z).
    { symmetry. apply (Z.div_unique_pos _ _ 100 (step - 1)); lia. }
    lia.
Qed.

Lemma pred_sample_indices_in_bounds_witness :
  pred_sample_indices (repeat (Fin 0) 99) = inl ValueError /\
  exists idx,
    pred_sample_indices (repeat (Fin 0) 250) = inr idx /\
    Forall (fun i => (0 <= i < len (repeat (Fin 0) 250))%Z) idx /\
    (100 <= length idx <= 199)%nat /\
    ((len (repeat (Fin 0) 250) mod 100 = 0)%Z -> length idx = 100%nat).
Proof.
  split.
  - refine (proj1 (pred_sample_indices_in_bounds (repeat (Fin 0) 99)) _).
    unfold len. rewrite repeat_length. lia.
  - refine (proj2 (pred_sample_indices_in_bounds (repeat (Fin 0) 250)) _).
    unfold len. rewrite repeat_length. lia.
Defined.

(** * The update in binary64 *)

Module Binary64Properties.

Import Floats.
Import Binary64.
Local Open Scope float_scope.

(** ** Scalars *)

Lemma truediv_np_r64 (a : num) (x : float) :
  truediv a (NpFloat64 x) = inr (NpFloat64 (value a / x)).
Proof. destruct a; reflexivity. Qed.

Lemma truediv_np_l64 (x : float) (b : num) :
  truediv (NpFloat64 x) b = inr (NpFloat64 (x / value b)).
Proof. destruct b; reflexivity. Qed.

Lemma add_np_r64 (a : num) (x : float) :
  add a (NpFloat64 x) = NpFloat64 (value a + x).
Proof. destruct a; reflexivity. Qed.

Lemma mul_np_r64 (a : num) (x : float) :
  mul a (NpFloat64 x) = NpFloat64 (value a * x).
Proof. destruct a; reflexivity. Qed.

Lemma sub_np_l64 (x : float) (b : num) :
  sub (NpFloat64 x) b = NpFloat64 (x - value b).
Proof. destruct b; reflexivity. Qed.

Lemma value_add64 (a b : num) : value (add a b) = value a + value b.
Proof. destruct a, b; reflexivity. Qed.

Lemma value_mul64 (a b : num) : value (mul a b) = value a * value b.
Proof. destruct a, b; reflexivity. Qed.

Lemma truediv_int_2_64 (n : Z) :
  truediv (py_int n) (py_int 2) = inr (PyFloat (float_of_int n / 2)).
Proof. reflexivity. Qed.

(** NaN absorbs an addition. *)
Lemma nan_add_l (y : float) : nan + y = nan.
Proof. apply Prim2SF_inj. rewrite add_spec. reflexivity. Qed.




Lemma prior_precision_init (mu x a b : float) :
  prior_precision (__init__ mu x a b)
  = if (is_finite x && is_infinity (x * x))%bool then inl OverflowError
    else if is_zero (x * x) then inl ZeroDivisionError
    else inr (PyFloat (1 / (x * x))).
Proof.
  unfold prior_precision, pow2. cbn [prior_sigma __init__].
  destruct (is_finite x && is_infinity (x * x))%bool; [reflexivity |].
  cbn [bind Monad_E]. unfold py_int. cbn [truediv].
  destruct (is_zero (x * x)); reflexivity.
Qed.

(** ** The update, step by step *)

Section Run.

Variable np_mean : ndarray -> float.
Variable np_var : ndarray -> Z -> float.
Variable np_sum : ndarray -> float.


Lemma informative_np_var64 (d : ndarray) :
  informative np_var d = true ->
  (1 <? len d)%Z = true /\ sample_var np_var d = NpFloat64 (np_var d 1).
Proof.
  unfold informative, sample_var. destruct (1 <? len d)%Z; [auto |].
  intros H. vm_compute in H. discriminate.
Qed.


(** What one call of [update_posterior] does: it records the data, and
    then either line 56 raises and nothing else is written, or all four
    posterior fields are. *)
Lemma update_posterior_run64 (d : ndarray) (self : BayesianNormalEstimator) :
  update_posterior np_mean np_var np_sum d self =
  match prior_precision self with
  | inl e => (state_after (set_data d) self, inl e)
  | inr pp =>
      (mkEstimator (prior_mu self) (prior_sigma self) (prior_alpha self) (prior_beta self)
         (new_mu np_mean np_var (value pp) self d) (new_sigma np_var (value pp) d)
         (new_alpha self d) (new_beta np_mean np_var np_sum (value pp) self d) d,
       inr tt)
  end.
Proof.
  unfold update_posterior, prior_precision.
  fold (sample_var np_var d). fold (informative np_var d).
  cbn [bind Monad_M set_data get_self eval state_after fst snd
       prior_mu prior_sigma prior_alpha prior_beta].
  destruct (bind (pow2 (prior_sigma self)) (fun s2 => truediv (py_int 1) s2))
    as [e | pp]; [reflexivity |].
  rewrite truediv_int_2_64.
  unfold new_mu, new_sigma, new_alpha, new_beta, new_precision, np_sqrt, sum_sq_dev.
  destruct (informative np_var d) eqn:G.
  - destruct (informative_np_var64 d G) as [Hn Hv]. rewrite Hn, Hv.
    rewrite !truediv_np_r64. cbn [bind Monad_E ret].
    rewrite !add_np_r64, !truediv_np_r64, !truediv_np_l64.
    cbn [bind Monad_M set_posterior_sigma set_posterior_mu set_posterior_alpha
         set_posterior_beta fst snd prior_mu prior_sigma prior_alpha prior_beta
         posterior_mu posterior_sigma posterior_alpha posterior_beta data value].
    rewrite !sub_np_l64. cbn [pow2 bind Monad_E].
    rewrite !mul_np_r64, !truediv_np_l64, !add_np_r64.
    cbn [bind Monad_M set_posterior_beta fst snd prior_mu prior_sigma prior_alpha prior_beta
         posterior_mu posterior_sigma posterior_alpha posterior_beta data value].
    rewrite !value_mul64. reflexivity.
  - cbn [bind Monad_E ret]. rewrite !truediv_np_r64.
    cbn [bind Monad_M set_posterior_sigma set_posterior_mu set_posterior_alpha
         set_posterior_beta fst snd prior_mu prior_sigma prior_alpha prior_beta
         posterior_mu posterior_sigma posterior_alpha posterior_beta data value].
    destruct (1 <? len d)%Z; [| reflexivity].
    rewrite !truediv_np_l64.
    rewrite !sub_np_l64. cbn [pow2 bind Monad_E].
    rewrite !mul_np_r64, !truediv_np_l64.
    cbn [bind Monad_M set_posterior_beta fst snd prior_mu prior_sigma prior_alpha prior_beta
         posterior_mu posterior_sigma posterior_alpha posterior_beta data value].
    rewrite !add_np_r64, ?value_add64, ?value_mul64. reflexivity.
Qed.

Lemma update_posterior_returns64
  (d : ndarray) (self : BayesianNormalEstimator) (pp : num) :
  prior_precision self = inr pp ->
  update_posterior np_mean np_var np_sum d self =
  (mkEstimator (prior_mu self) (prior_sigma self) (prior_alpha self) (prior_beta self)
     (new_mu np_mean np_var (value pp) self d) (new_sigma np_var (value pp) d)
     (new_alpha self d) (new_beta np_mean np_var np_sum (value pp) self d) d,
   inr tt).
Proof. intros H. rewrite update_posterior_run64, H. reflexivity. Qed.

End Run.

(** ** Failure behaviour of the update *)

(** C6, as amended: [update] raises only at the statement
    [prior_precision = 1 / (prior_mean_scale ** 2)], and there in two
    cases: [OverflowError] when [prior_mean_scale] is finite and its
    square overflows (1e200), [ZeroDivisionError] when its square is
    zero (0.0, or a scale whose square underflows, 2**-600).  The data
    has then been recorded and no posterior field written.  For every
    other prior (NaN, infinite, negative scale; any mean, shape and
    rate) the update returns, and the results degrade silently: a NaN
    [prior_mean_scale] gives a NaN [posterior_mean_scale]. *)
Theorem update_posterior_raises_at_prior_precision :
  (forall (np_mean : ndarray -> float) (np_var : ndarray -> Z -> float)
          (np_sum : ndarray -> float) (d : ndarray) (self : BayesianNormalEstimator),
     outcome (update_posterior np_mean np_var np_sum d) self =
     match prior_precision self with inl e => inl e | inr _ => inr tt end) /\
  (forall (np_mean : ndarray -> float) (np_var : ndarray -> Z -> float)
          (np_sum : ndarray -> float) (d : ndarray) (self : BayesianNormalEstimator)
          (e : exn),
     outcome (update_posterior np_mean np_var np_sum d) self = inl e ->
     state_after (update_posterior np_mean np_var np_sum d) self =
     mkEstimator (prior_mu self) (prior_sigma self) (prior_alpha self) (prior_beta self)
       (posterior_mu self) (posterior_sigma self)
       (posterior_alpha self) (posterior_beta self) d) /\
  (forall mu x a b : float,
     prior_precision (__init__ mu x a b) =
     if (is_finite x && is_infinity (x * x))%bool then inl OverflowError
     else if is_zero (x * x) then inl ZeroDivisionError
     else inr (PyFloat (1 / (x * x)))) /\
  (forall (np_mean : ndarray -> float) (np_var : ndarray -> Z -> float)
          (np_sum : ndarray -> float) (d : ndarray) (mu a b : float),
     outcome (update_posterior np_mean np_var np_sum d) (__init__ mu nan a b) = inr tt /\
     posterior_sigma
       (state_after (update_posterior np_mean np_var np_sum d) (__init__ mu nan a b))
     = NpFloat64 nan) /\
  (* 1e200 and 2**-600 *)
  prior_precision (__init__ 0 0x1.4e718d7d7625ap+664 1 1) = inl OverflowError /\
  prior_precision (__init__ 0 0x1p-600 1 1) = inl ZeroDivisionError /\
  prior_precision (__init__ 0 (-1) 1 1) = inr (PyFloat 1) /\
  prior_precision (__init__ 0 infinity 1 1) = inr (PyFloat 0).
Proof.
  split; [| split; [| split; [| split]]].
  - intros np_mean np_var np_sum d self. unfold outcome.
    rewrite update_posterior_run64. destruct (prior_precision self); reflexivity.
  - intros np_mean np_var np_sum d self e. unfold outcome, state_after.
    rewrite update_posterior_run64. destruct (prior_precision self); [| discriminate].
    reflexivity.
  - exact prior_precision_init.
  - intros np_mean np_var np_sum d mu a b. unfold outcome, state_after.
    rewrite (update_posterior_returns64 np_mean np_var np_sum d _ (PyFloat nan))
      by reflexivity.
    cbn [fst snd posterior_sigma value]. split; [reflexivity |].
    unfold new_sigma, new_precision.
    destruct (informative np_var d); [rewrite nan_add_l |]; reflexivity.
  - repeat split; vm_compute; reflexivity.
Qed.

Lemma update_posterior_raises_at_prior_precision_witness :
  state_after (update_posterior seq_mean seq_var seq_sum [1; 3]) (__init__ 0 0 1 1) =
  mkEstimator (PyFloat 0) (PyFloat 0) (PyFloat 1) (PyFloat 1)
              (PyFloat 0) (PyFloat 0) (PyFloat 1) (PyFloat 1) [1; 3].
Proof.
  refine (proj1 (proj2 update_posterior_raises_at_prior_precision)
            seq_mean seq_var seq_sum [1; 3] (__init__ 0 0 1 1) ZeroDivisionError _).
  vm_compute. reflexivity.
Defined.

(** C6 as stated fails: with [prior_mean_scale = 0.0] the update raises
    [ZeroDivisionError] instead of producing Inf or NaN. *)
Lemma update_posterior_zero_scale_raises64 :
  outcome (update_posterior seq_mean seq_var seq_sum [1; 3]) (__init__ 0 0 1 1)
  = inl ZeroDivisionError.
Proof. vm_compute. reflexivity. Qed.

(** ** The posterior shape *)

(** C4, as amended: for every data sequence of size n >= 0 and every
    prior at which the update returns (the square of [prior_mean_scale]
    neither zero nor overflowing), [update(data)] leaves
    [posterior_shape] equal to the float [prior_shape + n/2], whatever
    the variance of the sample. *)
Theorem posterior_shape_advances64
  (np_mean : ndarray -> float) (np_var : ndarray -> Z -> float) (np_sum : ndarray -> float)
  (d : ndarray) (self : BayesianNormalEstimator) (pp : num) :
  prior_precision self = inr pp ->
  outcome (update_posterior np_mean np_var np_sum d) self = inr tt /\
  posterior_alpha (state_after (update_posterior np_mean np_var np_sum d) self) =
  add (prior_alpha self) (PyFloat (float_of_int (len d) / 2)).
Proof.
  intros H. unfold outcome, state_after.
  rewrite (update_posterior_returns64 np_mean np_var np_sum d self pp H).
  split; reflexivity.
Qed.

Lemma posterior_shape_advances64_witness :
  outcome (update_posterior seq_mean seq_var seq_sum [3; 5; 7]) (__init__ 0 2 1 1) = inr tt /\
  posterior_alpha
    (state_after (update_posterior seq_mean seq_var seq_sum [3; 5; 7]) (__init__ 0 2 1 1))
  = add (PyFloat 1) (PyFloat (float_of_int 3 / 2)).
Proof.
  refine (posterior_shape_advances64 seq_mean seq_var seq_sum [3; 5; 7]
            (__init__ 0 2 1 1) (PyFloat 0.25) _).
  vm_compute. reflexivity.
Defined.

(** C4 as stated fails: with [prior_mean_scale = 0.0] the update raises
    before the shape is written, and [posterior_shape] stays at
    [prior_shape = 1.0], which is not [1.0 + 1/2]. *)
Lemma posterior_shape_stuck_at_zero_scale64 :
  outcome (update_posterior seq_mean seq_var seq_sum [5]) (__init__ 0 0 1 1)
  = inl ZeroDivisionError /\
  posterior_alpha
    (state_after (update_posterior seq_mean seq_var seq_sum [5]) (__init__ 0 0 1 1))
  = PyFloat 1 /\
  (value (posterior_alpha
            (state_after (update_posterior seq_mean seq_var seq_sum [5]) (__init__ 0 0 1 1)))
   =? 1 + float_of_int (len [5]) / 2) = false.
Proof. vm_compute. repeat split. Qed.

(** ** One point, no point *)








(** ** The informative update *)




(** Whether a sample is informative is decided on the float that
    [np.var] returns: three points equal to 0.1 have a computed variance
    above zero, the two distinct points 1e-200 and 3e-200 a computed
    variance of zero. *)
Example informative_is_decided_on_floats :
  informative seq_var [0x1.999999999999ap-4; 0x1.999999999999ap-4; 0x1.999999999999ap-4]
  = true /\
  informative seq_var [0x1.87e92154ef7acp-665; 0x1.25eed8ffb39c1p-663] = false.
Proof. vm_compute. split; reflexivity. Qed.

(** ** The posterior scale against the prior scale *)




End Binary64Properties.
